(** * decidim-electionguard: the bulletin board protocol engine

    A shallow embedding of [src/decidim/electionguard/bulletin_board.py]:
    the election context, the nine protocol steps with their message
    handlers, the dispatcher they run under and the two side-channel
    operations, followed by the properties stated about them. *)

From stdpp Require Import gmap strings list.

Open Scope string_scope.
Open Scope list_scope.
Open Scope nat_scope.

(** ** Insertion-ordered dictionaries

    A Python [dict] keeps its entries in insertion order, and the code hands
    [dict.values()] and whole dictionaries to the cryptographic library, so a
    dictionary is an association list: assigning to a present key replaces
    the value in place, assigning to a new key appends the entry. *)

Section Dict.
Context {V : Type}.

(** [d[k] = v] *)
Fixpoint dict_set (k : string) (v : V) (d : list (string * V))
  : list (string * V) :=
  match d with
  | [] => [(k, v)]
  | (k', v') :: d' =>
      if decide (k = k') then (k, v) :: d' else (k', v') :: dict_set k v d'
  end.

(** [d.get(k)] *)
Fixpoint dict_get (k : string) (d : list (string * V)) : option V :=
  match d with
  | [] => None
  | (k', v') :: d' => if decide (k = k') then Some v' else dict_get k d'
  end.

(** [d.keys()] and [d.values()], in iteration order. *)
Definition dict_keys (d : list (string * V)) : list string := d.*1.
Definition dict_values (d : list (string * V)) : list V := d.*2.

(** [dict(pairs)]: later pairs overwrite earlier ones with the same key. *)
Definition dict_of_pairs (l : list (string * V)) : list (string * V) :=
  fold_left (fun d kv => dict_set kv.1 kv.2 d) l [].
End Dict.

(** ** Exceptions and outcomes *)

Inductive Exception :=
| DeserializeError   (* [deserialize] could not decode the payload *)
| AttributeError     (* an attribute that was never assigned is read *)
| AssertionError     (* [get_optional] was given [None] *)
| InvalidBallot      (* raised by [ProcessCastVote] *)
| LibraryError.      (* whatever the [electionguard] library raises inside *)

Inductive Outcome (A : Type) :=
| Return (a : A)
| Raise (e : Exception).
Arguments Return {A} a.
Arguments Raise {A} e.

#[export] Instance Outcome_ret : MRet Outcome := fun A a => Return a.

#[export] Instance Outcome_bind : MBind Outcome := fun A B f o =>
  match o with
  | Return a => f a
  | Raise e => Raise e
  end.

(** Reading an attribute that may not have been assigned yet. *)
Definition getattr {A} (field : option A) : Outcome A :=
  match field with
  | Some a => Return a
  | None => Raise AttributeError
  end.

(** [for x in l: ...] building a list of results, stopping at the first
    exception. *)
Fixpoint for_each {A B} (f : A -> Outcome B) (l : list A) : Outcome (list B) :=
  match l with
  | [] => Return []
  | a :: l' => b ← f a; bs ← for_each f l'; Return (b :: bs)
  end.

(** ** Decoded message contents

    The classes [deserialize] decodes into, with the fields the handlers
    read; [P] is the type of public keys and [S] the type of a guardian's
    partial decryption of one selection. *)

(** [electionguard.key_ceremony.PublicKeySet] *)
Record PublicKeySet {P : Type} := {
  owner_id : string;
  election_public_key : P
}.
Arguments PublicKeySet P : clear implicits.

(** [messages.TrusteePartialKeys] *)
Record TrusteePartialKeys := {
  partial_keys_guardian_id : string   (* [guardian_id] *)
}.

(** [messages.TrusteeVerification] *)
Record TrusteeVerification := {
  verification_guardian_id : string   (* [guardian_id] *)
}.

(** [electionguard.decryption_share.CiphertextDecryptionContest] *)
Record CiphertextDecryptionContest {S : Type} := {
  selections : list (string * S)
}.
Arguments CiphertextDecryptionContest S : clear implicits.

(** [messages.TrusteeShare] *)
Record TrusteeShare {P S : Type} := {
  guardian_id : string;
  public_key : P;
  contests : list (string * CiphertextDecryptionContest S)
}.
Arguments TrusteeShare P S : clear implicits.

(** ** The collaborators

    The [electionguard] library and the package's own [utils] and [messages]
    modules are outside the file; their types stay abstract and their
    functions are the operations of this interface. *)

Class Collaborators := {
  (* electionguard.group *)
  ElementModP : Type;
  ElementModQ : Type;
  (* electionguard.ballot *)
  CiphertextBallot : Type;
  CiphertextAcceptedBallot : Type;
  BallotBoxState : Type;
  CAST : BallotBoxState;
  from_ciphertext_ballot :
    CiphertextBallot -> BallotBoxState -> CiphertextAcceptedBallot;
  (* electionguard.election and election_builder *)
  ElectionBuilder : Type;
  InternalElectionDescription : Type;
  CiphertextElectionContext : Type;
  set_public_key : ElementModP -> ElectionBuilder -> ElectionBuilder;
  build : ElectionBuilder ->
          option (InternalElectionDescription * CiphertextElectionContext);
  crypto_extended_base_hash : CiphertextElectionContext -> ElementModQ;
  (* electionguard.elgamal *)
  elgamal_combine_public_keys : list ElementModP -> ElementModP;
  (* electionguard.ballot_validator *)
  ballot_is_valid_for_election :
    CiphertextBallot -> InternalElectionDescription ->
    CiphertextElectionContext -> bool;
  (* electionguard.tally *)
  CiphertextTally : Type;
  CiphertextTallyContest : Type;
  CiphertextTallySelection : Type;
  PlaintextTallySelection : Type;
  new_CiphertextTally :
    string -> InternalElectionDescription -> CiphertextElectionContext ->
    CiphertextTally;
  cast : CiphertextTally -> list (string * CiphertextTallyContest);
  contest_object_id : CiphertextTallyContest -> string;
  tally_selections :
    CiphertextTallyContest -> list (string * CiphertextTallySelection);
  selection_object_id : CiphertextTallySelection -> string;
  plaintext_object_id : PlaintextTallySelection -> string;
  (* [tally_ballot] works on the tally in place and may raise: the tally as
     the call leaves it, and the exception when it raises *)
  tally_ballot :
    CiphertextAcceptedBallot -> CiphertextTally ->
    CiphertextTally * option Exception;
  (* electionguard.decryption_share and decrypt_with_shares *)
  CiphertextDecryptionSelection : Type;
  decrypt_selection_with_decryption_shares :
    CiphertextTallySelection ->
    list (string * (ElementModP * CiphertextDecryptionSelection)) ->
    ElementModQ -> option PlaintextTallySelection;
  (* .common: the skeleton [Context.build_election] reads off the
     [create_election] message *)
  Payload : Type;
  election_skeleton : Payload -> option (nat * ElectionBuilder);
  (* .utils: what [deserialize(payload, T)] decodes for each class [T] it
     is called with, [None] when the payload does not decode *)
  decode_PublicKeySet : Payload -> option (PublicKeySet ElementModP);
  decode_TrusteePartialKeys : Payload -> option TrusteePartialKeys;
  decode_TrusteeVerification : Payload -> option TrusteeVerification;
  decode_TrusteeShare :
    Payload -> option (TrusteeShare ElementModP CiphertextDecryptionSelection);
  decode_CiphertextBallot : Payload -> option CiphertextBallot;
  (* .utils: [serialize] and [serialize_as_dict] at the types they are
     used at *)
  serialize_JointElectionKey : ElementModP -> Payload;
  serialize_cast : list (string * CiphertextTallyContest) -> Payload;
  serialize_PlaintextTallyContest :
    string -> list (string * PlaintextTallySelection) -> Payload
}.

Section Model.
Context `{Collaborators}.

(** ** Messages *)

(** [Content]: the inbound envelope. *)
Record Content := {
  message_type : string;
  content : Payload
}.

(** What an outbound dictionary carries next to its ['message_type']:
    ['content'] or ['results']. *)
Inductive Body :=
| content_of (p : Payload)
| results_of (r : list (string * Payload)).

Record Outbound := {
  out_message_type : string;
  out_body : Body
}.

(** [deserialize(payload, T)] *)
Definition deserialize {T : Type} (decode : Payload -> option T)
    (payload : Payload) : Outcome T :=
  match decode payload with
  | Some x => Return x
  | None => Raise DeserializeError
  end.

Abbreviation Share := (TrusteeShare ElementModP CiphertextDecryptionSelection).

(** ** The election context *)

(** [BulletinBoardContext]. [__init__] assigns [public_keys],
    [has_joint_key] and [shares]; the other attributes do not exist until
    a handler assigns them, and reading one before that raises. *)
Record BulletinBoardContext := {
  public_keys : list (string * ElementModP);
  has_joint_key : bool;
  shares : list (string * Share);
  tally : option CiphertextTally;
  number_of_guardians : option nat;
  election_builder : option ElectionBuilder;
  election_metadata : option InternalElectionDescription;
  election_context : option CiphertextElectionContext
}.

(** [BulletinBoardContext.__init__] *)
Definition BulletinBoardContext_init : BulletinBoardContext := {|
  public_keys := [];
  has_joint_key := false;
  shares := [];
  tally := None;
  number_of_guardians := None;
  election_builder := None;
  election_metadata := None;
  election_context := None
|}.

Definition set_public_keys (v : list (string * ElementModP))
    (c : BulletinBoardContext) : BulletinBoardContext :=
  {| public_keys := v; has_joint_key := has_joint_key c; shares := shares c;
     tally := tally c; number_of_guardians := number_of_guardians c;
     election_builder := election_builder c;
     election_metadata := election_metadata c;
     election_context := election_context c |}.

Definition set_shares (v : list (string * Share))
    (c : BulletinBoardContext) : BulletinBoardContext :=
  {| public_keys := public_keys c; has_joint_key := has_joint_key c;
     shares := v;
     tally := tally c; number_of_guardians := number_of_guardians c;
     election_builder := election_builder c;
     election_metadata := election_metadata c;
     election_context := election_context c |}.

Definition set_tally (v : CiphertextTally)
    (c : BulletinBoardContext) : BulletinBoardContext :=
  {| public_keys := public_keys c; has_joint_key := has_joint_key c;
     shares := shares c;
     tally := Some v; number_of_guardians := number_of_guardians c;
     election_builder := election_builder c;
     election_metadata := election_metadata c;
     election_context := election_context c |}.

Definition set_election_builder (v : ElectionBuilder)
    (c : BulletinBoardContext) : BulletinBoardContext :=
  {| public_keys := public_keys c; has_joint_key := has_joint_key c;
     shares := shares c;
     tally := tally c; number_of_guardians := number_of_guardians c;
     election_builder := Some v;
     election_metadata := election_metadata c;
     election_context := election_context c |}.

Definition set_election_parameters
    (m : InternalElectionDescription) (e : CiphertextElectionContext)
    (c : BulletinBoardContext) : BulletinBoardContext :=
  {| public_keys := public_keys c; has_joint_key := has_joint_key c;
     shares := shares c;
     tally := tally c; number_of_guardians := number_of_guardians c;
     election_builder := election_builder c;
     election_metadata := Some m;
     election_context := Some e |}.

(** Modelled from the spec: [Context.build_election] of [common.py], which
    is not among the sources. CreateElection "builds the initial election
    skeleton (guardian count, base parameters) from its content": the
    guardian count and the election builder are read off the message and
    stored; a message they cannot be read off raises before anything is
    stored. *)
Definition build_election (message : Content) (c : BulletinBoardContext)
  : BulletinBoardContext * Outcome unit :=
  match election_skeleton (content message) with
  | Some (n, b) =>
      ({| public_keys := public_keys c; has_joint_key := has_joint_key c;
          shares := shares c; tally := tally c;
          number_of_guardians := Some n;
          election_builder := Some b;
          election_metadata := election_metadata c;
          election_context := election_context c |}, Return ())
  | None => (c, Raise DeserializeError)
  end.

(** ** The protocol steps

    One constructor per [ElectionStep] subclass; the two steps that keep a
    phase-local set of contributors carry it. *)
Inductive ElectionStep :=
| ProcessCreateElection
| ProcessStartKeyCeremony
| ProcessTrusteeElectionKeys
| ProcessTrusteeElectionPartialKeys (partial_keys_received : gset string)
| ProcessTrusteeVerification (verifications_received : gset string)
| ProcessStartVote
| ProcessCastVote
| ProcessStartTally
| ProcessTrusteeShare.

(** Modelled from the spec: [ElectionStep.__init__] of [common.py], which
    runs the step's "one-time setup (initializing its phase-local
    accumulator)". [setup] itself is in the source: both accumulators
    start as [set()]. *)
Definition new_ProcessTrusteeElectionPartialKeys : ElectionStep :=
  ProcessTrusteeElectionPartialKeys ∅.
Definition new_ProcessTrusteeVerification : ElectionStep :=
  ProcessTrusteeVerification ∅.

(** The class attribute [message_type]; [ProcessCastVote] declares none. *)
Definition step_message_type (self : ElectionStep) : option string :=
  match self with
  | ProcessCreateElection => Some "create_election"
  | ProcessStartKeyCeremony => Some "start_key_ceremony"
  | ProcessTrusteeElectionKeys => Some "key_ceremony.trustee_election_keys"
  | ProcessTrusteeElectionPartialKeys _ =>
      Some "key_ceremony.trustee_partial_election_keys"
  | ProcessTrusteeVerification _ => Some "key_ceremony.trustee_verification"
  | ProcessStartVote => Some "start_vote"
  | ProcessCastVote => None
  | ProcessStartTally => Some "start_tally"
  | ProcessTrusteeShare => Some "tally.trustee_share"
  end.

(** [skip_message]. [ProcessCastVote] overrides it in the source.
    Modelled from the spec: the inherited [ElectionStep.skip_message] of
    [common.py], "messages outside this set are ignored": a step skips
    every message whose type is not its [message_type]. *)
Definition skip_message (self : ElectionStep) (message_type : string) : bool :=
  match self with
  | ProcessCastVote =>
      bool_decide (message_type ≠ "vote.cast")
      && bool_decide (message_type ≠ "end_vote")
  | _ => bool_decide (step_message_type self ≠ Some message_type)
  end.

(** What a handler hands back: the step object and the context as the
    handler left them (both are mutated in place, also when the handler
    raises afterwards) and either the returned pair of outbound message
    and next step, or the exception. *)
Definition Handled : Type :=
  ElectionStep * BulletinBoardContext
  * Outcome (option Outbound * option ElectionStep).

(** [ProcessCreateElection.process_message] *)
Definition ProcessCreateElection_process_message
    (message_type : string) (message : Content)
    (context : BulletinBoardContext) : Handled :=
  match build_election message context with
  | (context, Return _) =>
      (ProcessCreateElection, context,
       Return (None, Some ProcessStartKeyCeremony))
  | (context, Raise e) => (ProcessCreateElection, context, Raise e)
  end.

(** [ProcessStartKeyCeremony.process_message] *)
Definition ProcessStartKeyCeremony_process_message
    (message_type : string) (_message : Content)
    (context : BulletinBoardContext) : Handled :=
  (ProcessStartKeyCeremony, context,
   Return (None, Some ProcessTrusteeElectionKeys)).

(** [ProcessTrusteeElectionKeys.process_message] *)
Definition ProcessTrusteeElectionKeys_process_message
    (_message_type : string) (message : Content)
    (context : BulletinBoardContext) : Handled :=
  match deserialize decode_PublicKeySet (content message) with
  | Raise e => (ProcessTrusteeElectionKeys, context, Raise e)
  | Return content =>
      let guardian_id := owner_id content in
      let guardian_public_key := election_public_key content in
      let context :=
        set_public_keys
          (dict_set guardian_id guardian_public_key (public_keys context))
          context in
      (ProcessTrusteeElectionKeys, context,
       n ← getattr (number_of_guardians context);
       if decide (length (public_keys context) = n)
       then Return (None, Some new_ProcessTrusteeElectionPartialKeys)
       else Return (None, None))
  end.

(** [ProcessTrusteeElectionPartialKeys.process_message] *)
Definition ProcessTrusteeElectionPartialKeys_process_message
    (partial_keys_received : gset string)
    (_message_type : string) (message : Content)
    (context : BulletinBoardContext) : Handled :=
  match deserialize decode_TrusteePartialKeys (content message) with
  | Raise e =>
      (ProcessTrusteeElectionPartialKeys partial_keys_received, context,
       Raise e)
  | Return content =>
      let partial_keys_received :=
        partial_keys_received ∪ {[ partial_keys_guardian_id content ]} in
      (ProcessTrusteeElectionPartialKeys partial_keys_received, context,
       n ← getattr (number_of_guardians context);
       if decide (size partial_keys_received = n)
       then Return (None, Some new_ProcessTrusteeVerification)
       else Return (None, None))
  end.

(** [ProcessTrusteeVerification.process_message] *)
Definition ProcessTrusteeVerification_process_message
    (verifications_received : gset string)
    (message_type : string) (message : Content)
    (context : BulletinBoardContext) : Handled :=
  match deserialize decode_TrusteeVerification (content message) with
  | Raise e =>
      (ProcessTrusteeVerification verifications_received, context, Raise e)
  | Return content =>
      let verifications_received :=
        verifications_received ∪ {[ verification_guardian_id content ]} in
      let self := ProcessTrusteeVerification verifications_received in
      match number_of_guardians context with
      | None => (self, context, Raise AttributeError)
      | Some n =>
          if decide (size verifications_received < n)
          then (self, context, Return (None, None))
          else
            let joint_key :=
              elgamal_combine_public_keys (dict_values (public_keys context)) in
            match election_builder context with
            | None => (self, context, Raise AttributeError)
            | Some builder =>
                let builder := set_public_key joint_key builder in
                let context := set_election_builder builder context in
                match build builder with
                | None => (self, context, Raise AssertionError)
                | Some (metadata, ectx) =>
                    (self, set_election_parameters metadata ectx context,
                     Return
                       (Some {| out_message_type := "end_key_ceremony";
                                out_body :=
                                  content_of
                                    (serialize_JointElectionKey joint_key) |},
                        Some ProcessStartVote))
                end
            end
      end
  end.

(** [ProcessStartVote.process_message] *)
Definition ProcessStartVote_process_message
    (message_type : string) (message : Content)
    (context : BulletinBoardContext) : Handled :=
  (ProcessStartVote, context, Return (None, Some ProcessCastVote)).

(** [ProcessCastVote.process_message] *)
Definition ProcessCastVote_process_message
    (message_type : string) (message : Content)
    (context : BulletinBoardContext) : Handled :=
  if decide (message_type = "end_vote") then
    match election_metadata context, election_context context with
    | Some metadata, Some ectx =>
        (ProcessCastVote,
         set_tally (new_CiphertextTally "election-results" metadata ectx)
           context,
         Return (None, Some ProcessStartTally))
    | _, _ => (ProcessCastVote, context, Raise AttributeError)
    end
  else
    (ProcessCastVote, context,
     ballot ← deserialize decode_CiphertextBallot (content message);
     metadata ← getattr (election_metadata context);
     ectx ← getattr (election_context context);
     if negb (ballot_is_valid_for_election ballot metadata ectx)
     then Raise InvalidBallot
     else Return (None, None)).

(** [ProcessStartTally.process_message] *)
Definition ProcessStartTally_process_message
    (message_type : string) (message : Content)
    (context : BulletinBoardContext) : Handled :=
  (ProcessStartTally, context, Return (None, Some ProcessTrusteeShare)).

(** A guardian's public key with its partial decryption of one
    selection. *)
Abbreviation KeyAndShare := (ElementModP * CiphertextDecryptionSelection)%type.

(** [shares[selection_id]] on the [defaultdict(dict)]: a missing key reads
    as the empty dictionary. *)
Definition defaultdict_get {V : Type} (k : string)
    (d : list (string * list (string * V))) : list (string * V) :=
  default [] (dict_get k d).

(** [ProcessTrusteeShare._prepare_shares_for_decryption]: the three nested
    loops, each a left fold over the dictionary's items that threads the
    [shares] accumulator. *)
Definition _prepare_shares_for_decryption
    (tally_shares : list (string * Share))
  : list (string * list (string * KeyAndShare)) :=
  fold_left (fun shares '(guardian_id, share) =>
    fold_left (fun shares '(question_id, question) =>
      fold_left (fun shares '(selection_id, selection) =>
        dict_set selection_id
          (dict_set guardian_id (public_key share, selection)
             (defaultdict_get selection_id shares))
          shares)
        (selections question) shares)
      (contests share) shares)
    tally_shares [].

(** Modelled from the spec: [pair_with_object_id] of [utils.py], which is
    not among the sources; results are assembled keyed by object id, so
    the function pairs an object with its [object_id]. Reading the
    attribute off [None], which the decryption returns when it fails,
    raises. *)
Definition pair_with_object_id (obj : option PlaintextTallySelection)
  : Outcome (string * PlaintextTallySelection) :=
  match obj with
  | Some o => Return (plaintext_object_id o, o)
  | None => Raise AttributeError
  end.

(** The body of the loop over [context.tally.cast.values()]: the entry of
    [results] for one contest. *)
Definition contest_result (context : BulletinBoardContext)
    (tally_shares : list (string * list (string * KeyAndShare)))
    (contest : CiphertextTallyContest) : Outcome (string * Payload) :=
  selections ← for_each (fun selection =>
      ectx ← getattr (election_context context);
      pair_with_object_id
        (decrypt_selection_with_decryption_shares
           selection
           (defaultdict_get (selection_object_id selection) tally_shares)
           (crypto_extended_base_hash ectx)))
    (dict_values (tally_selections contest));
  Return (contest_object_id contest,
          serialize_PlaintextTallyContest (contest_object_id contest)
            (dict_of_pairs selections)).

(** Lines 155 to 170 of [ProcessTrusteeShare.process_message]: the
    [results] dictionary. *)
Definition tally_results (context : BulletinBoardContext)
  : Outcome (list (string * Payload)) :=
  let tally_shares := _prepare_shares_for_decryption (shares context) in
  tally ← getattr (tally context);
  entries ← for_each (contest_result context tally_shares)
              (dict_values (cast tally));
  Return (dict_of_pairs entries).

(** [ProcessTrusteeShare.process_message] *)
Definition ProcessTrusteeShare_process_message
    (message_type : string) (message : Content)
    (context : BulletinBoardContext) : Handled :=
  match deserialize decode_TrusteeShare (content message) with
  | Raise e => (ProcessTrusteeShare, context, Raise e)
  | Return content =>
      let context :=
        set_shares (dict_set (guardian_id content) content (shares context))
          context in
      (ProcessTrusteeShare, context,
       n ← getattr (number_of_guardians context);
       if decide (length (shares context) < n)
       then Return (None, None)
       else
         results ← tally_results context;
         Return (Some {| out_message_type := "end_tally";
                         out_body := results_of results |}, None))
  end.

(** The handler of the active step. *)
Definition process_message (self : ElectionStep) (message_type : string)
    (message : Content) (context : BulletinBoardContext) : Handled :=
  match self with
  | ProcessCreateElection =>
      ProcessCreateElection_process_message message_type message context
  | ProcessStartKeyCeremony =>
      ProcessStartKeyCeremony_process_message message_type message context
  | ProcessTrusteeElectionKeys =>
      ProcessTrusteeElectionKeys_process_message message_type message context
  | ProcessTrusteeElectionPartialKeys received =>
      ProcessTrusteeElectionPartialKeys_process_message received
        message_type message context
  | ProcessTrusteeVerification received =>
      ProcessTrusteeVerification_process_message received
        message_type message context
  | ProcessStartVote =>
      ProcessStartVote_process_message message_type message context
  | ProcessCastVote =>
      ProcessCastVote_process_message message_type message context
  | ProcessStartTally =>
      ProcessStartTally_process_message message_type message context
  | ProcessTrusteeShare =>
      ProcessTrusteeShare_process_message message_type message context
  end.

(** ** The dispatcher *)

(** [BulletinBoard(Wrapper[BulletinBoardContext])]: the context and the
    active step. *)
Record BulletinBoard := {
  context : BulletinBoardContext;
  step : ElectionStep
}.

(** [BulletinBoard.__init__] *)
Definition BulletinBoard_init : BulletinBoard :=
  {| context := BulletinBoardContext_init; step := ProcessCreateElection |}.

(** Modelled from the spec: [Wrapper.process_message] of [common.py],
    which is not among the sources. "If the active step declares the
    message's type outside its accepted set, the call is a no-op (returns
    nothing, no state change). If accepted, it invokes the step's handler
    with (messageType, message, context), which returns (outboundOrNone,
    nextStepOrNone). If nextStep is non-none, the Dispatcher replaces the
    active step." An exception of the handler passes through to the
    caller, with whatever the handler had mutated before it. *)
Definition Wrapper_process_message (self : BulletinBoard)
    (message_type : string) (message : Content)
  : BulletinBoard * Outcome (option Outbound) :=
  if skip_message (step self) message_type then (self, Return None)
  else
    match process_message (step self) message_type message (context self) with
    | (step', context', Return (result, next_step)) =>
        ({| context := context';
            step := default step' next_step |}, Return result)
    | (step', context', Raise e) =>
        ({| context := context'; step := step' |}, Raise e)
    end.

(** Whether submitting the message makes the dispatcher install a next
    step. *)
Definition transitions (self : BulletinBoard)
    (message_type : string) (message : Content) : bool :=
  if skip_message (step self) message_type then false
  else
    match process_message (step self) message_type message (context self) with
    | (_, _, Return (_, Some _)) => true
    | _ => false
    end.

(** [BulletinBoard.add_ballot]. The tally is the object [tally_ballot]
    works on: it stays as the library leaves it, also when the library
    raises, and what the library raises escapes. *)
Definition add_ballot (self : BulletinBoard) (ballot : Payload)
  : BulletinBoard * Outcome unit :=
  match deserialize decode_CiphertextBallot ballot with
  | Raise e => (self, Raise e)
  | Return ciphertext_ballot =>
      let accepted := from_ciphertext_ballot ciphertext_ballot CAST in
      match tally (context self) with
      | None => (self, Raise AttributeError)
      | Some t =>
          let tallied := tally_ballot accepted t in
          ({| context := set_tally tallied.1 (context self);
              step := step self |},
           match tallied.2 with
           | Some e => Raise e
           | None => Return ()
           end)
      end
  end.

(** [BulletinBoard.get_tally_cast] *)
Definition get_tally_cast (self : BulletinBoard) : Outcome Outbound :=
  t ← getattr (tally (context self));
  Return {| out_message_type := "tally.cast";
            out_body := content_of (serialize_cast (cast t)) |}.

(** ** Runs *)

(** What a caller can do with a bulletin board. *)
Inductive Call :=
| Submit (message_type : string) (message : Content)
| AddBallot (ballot : Payload)
| GetTallyCast.

(** The board after one call; an exception leaves the board as the call
    left it. *)
Definition call (self : BulletinBoard) (c : Call) : BulletinBoard :=
  match c with
  | Submit message_type message =>
      (Wrapper_process_message self message_type message).1
  | AddBallot ballot => (add_ballot self ballot).1
  | GetTallyCast => self
  end.

(** The board after a sequence of calls. *)
Definition run (self : BulletinBoard) (calls : list Call) : BulletinBoard :=
  fold_left call calls self.

(** The boards some sequence of calls leads to from a new one. *)
Definition reachable (bb : BulletinBoard) : Prop :=
  ∃ calls, bb = run BulletinBoard_init calls.

(** The board after submitting a sequence of messages, and the number of
    transitions on the way. *)
Definition submit_all (self : BulletinBoard) (messages : list Content)
  : BulletinBoard :=
  fold_left (fun bb m => (Wrapper_process_message bb (message_type m) m).1)
    messages self.

(** What the dispatcher returns, or raises, for each message of a
    sequence. *)
Fixpoint outcomes (self : BulletinBoard) (messages : list Content)
  : list (Outcome (option Outbound)) :=
  match messages with
  | [] => []
  | m :: messages' =>
      (Wrapper_process_message self (message_type m) m).2
      :: outcomes (Wrapper_process_message self (message_type m) m).1
           messages'
  end.

Fixpoint count_transitions (self : BulletinBoard) (messages : list Content)
  : nat :=
  match messages with
  | [] => 0
  | m :: messages' =>
      (if transitions self (message_type m) m then 1 else 0)
      + count_transitions
          (Wrapper_process_message self (message_type m) m).1 messages'
  end.
End Model.

Arguments Content {_}.
Arguments Outbound {_}.
Arguments BulletinBoardContext {_}.
Arguments BulletinBoard {_}.
Arguments Call {_}.

(** ** Notions the properties are stated with *)

Section Notions.
Context `{EG : Collaborators}.

Abbreviation Share := (TrusteeShare ElementModP CiphertextDecryptionSelection).
Abbreviation KeyAndShare := (ElementModP * CiphertextDecryptionSelection)%type.

(** *** Messages of a phase *)

(** A message the guardian-key step accepts and decodes. *)
Definition keys_message (m : Content) : Prop :=
  message_type m = "key_ceremony.trustee_election_keys"
  ∧ is_Some (decode_PublicKeySet (content m)).

(** The guardians a list of messages comes from. *)
Definition senders (messages : list Content) : list string :=
  omap (fun m => owner_id <$> decode_PublicKeySet (content m)) messages.

(** A message the share step accepts and decodes. *)
Definition share_message (m : Content) : Prop :=
  message_type m = "tally.trustee_share"
  ∧ is_Some (decode_TrusteeShare (content m)).

(** The bundles a list of messages carries. *)
Definition bundles (messages : list Content) : list Share :=
  omap (fun m => decode_TrusteeShare (content m)) messages.

(** Line 150, for each bundle in turn. *)
Definition record_bundles (bs : list Share) (recorded : list (string * Share))
  : list (string * Share) :=
  fold_left (fun d b => dict_set (guardian_id b) b d) bs recorded.

(** The [end_tally] message. *)
Definition end_tally (results : list (string * Payload)) : Outbound :=
  {| out_message_type := "end_tally"; out_body := results_of results |}.

(** *** Phases and what they leave behind *)

(** The steps that follow the key ceremony. *)
Definition key_ceremony_ended (s : ElectionStep) : bool :=
  match s with
  | ProcessStartVote | ProcessCastVote
  | ProcessStartTally | ProcessTrusteeShare => true
  | _ => false
  end.

(** The steps that follow [end_vote]. *)
Definition vote_closed (s : ElectionStep) : bool :=
  match s with
  | ProcessStartTally | ProcessTrusteeShare => true
  | _ => false
  end.

(** What holds of the context in each step. *)
Definition step_invariant (s : ElectionStep)
    (context : BulletinBoardContext) : Prop :=
  match s with
  | ProcessCreateElection =>
      tally context = None ∧ public_keys context = []
  | ProcessStartKeyCeremony =>
      tally context = None ∧ public_keys context = []
      ∧ is_Some (number_of_guardians context)
  | ProcessTrusteeElectionKeys =>
      tally context = None
      ∧ ∃ n, number_of_guardians context = Some n
             ∧ (1 ≤ n → length (public_keys context) < n)
  | ProcessTrusteeElectionPartialKeys _ | ProcessTrusteeVerification _
  | ProcessStartVote | ProcessCastVote =>
      tally context = None
      ∧ number_of_guardians context = Some (length (public_keys context))
  | ProcessStartTally | ProcessTrusteeShare =>
      is_Some (tally context)
      ∧ number_of_guardians context = Some (length (public_keys context))
  end.

(** What holds of every board a sequence of calls leads to. *)
Definition invariant (bb : BulletinBoard) : Prop :=
  has_joint_key (context bb) = false
  ∧ NoDup (dict_keys (public_keys (context bb)))
  ∧ NoDup (dict_keys (shares (context bb)))
  ∧ step_invariant (step bb) (context bb).

(** What the key ceremony leaves in the context. *)
Definition ceremony_outcome (context : BulletinBoardContext) :=
  (public_keys context, number_of_guardians context,
   election_builder context, election_metadata context,
   election_context context).

(** The tally after adding the ballots that decode, in order, each left as
    [tally_ballot] leaves it. *)
Definition tally_all (ballots : list Payload) (t : CiphertextTally)
  : CiphertextTally :=
  fold_left (fun t b => (tally_ballot (from_ciphertext_ballot b CAST) t).1)
    (omap decode_CiphertextBallot ballots) t.

(** *** What the spec says the handler computes at quorum

    "For every contest and every selection within the accumulated cast
    tally, gather, across all recorded share bundles, the (guardian public
    key, per-selection partial decryption) pair; combine each selection's
    set of partial decryptions into one plaintext tally value (keyed by
    the election's extended hash). Assemble results per contest." *)

(** All (selection id, partial decryption) entries of a bundle, contest
    after contest. *)
Definition bundle_selections (share : Share)
  : list (string * CiphertextDecryptionSelection) :=
  flat_map (fun q => selections q.2) (contests share).

(** The bundle's partial decryption of a selection: the last entry with
    its id, if there is one. *)
Definition partial_decryption (selection_id : string) (share : Share)
  : option CiphertextDecryptionSelection :=
  dict_get selection_id (reverse (bundle_selections share)).

(** The pairs gathered for one selection across the recorded bundles, in
    the order the bundles are recorded in. *)
Definition gather_pairs (selection_id : string)
    (recorded : list (string * Share)) : list (string * KeyAndShare) :=
  omap (fun entry =>
          (fun s => (entry.1, (public_key entry.2, s)))
          <$> partial_decryption selection_id entry.2)
       recorded.

(** The plaintext value of one selection, keyed by its object id. *)
Definition combined_selection (context : BulletinBoardContext)
    (selection : CiphertextTallySelection)
  : option (string * PlaintextTallySelection) :=
  ectx ← election_context context;
  plaintext ← decrypt_selection_with_decryption_shares selection
                (gather_pairs (selection_object_id selection)
                   (shares context))
                (crypto_extended_base_hash ectx);
  Some (plaintext_object_id plaintext, plaintext).

(** The result of one contest, keyed by its object id. *)
Definition combined_contest (context : BulletinBoardContext)
    (contest : CiphertextTallyContest) : option (string * Payload) :=
  plaintexts ← mapM (combined_selection context)
                 (dict_values (tally_selections contest));
  Some (contest_object_id contest,
        serialize_PlaintextTallyContest (contest_object_id contest)
          (dict_of_pairs plaintexts)).

(** The full results. *)
Definition combined_results (context : BulletinBoardContext)
  : option (list (string * Payload)) :=
  t ← tally context;
  entries ← mapM (combined_contest context) (dict_values (cast t));
  Some (dict_of_pairs entries).

(** *** The loops of [_prepare_shares_for_decryption], one by one *)

(** The innermost loop body of [_prepare_shares_for_decryption]. *)
Definition add_pair (guardian_id : string) (key : ElementModP)
    (acc : list (string * list (string * KeyAndShare)))
    (entry : string * CiphertextDecryptionSelection)
  : list (string * list (string * KeyAndShare)) :=
  dict_set entry.1
    (dict_set guardian_id (key, entry.2) (defaultdict_get entry.1 acc)) acc.

(** The two inner loops, over one bundle. *)
Definition add_bundle (acc : list (string * list (string * KeyAndShare)))
    (entry : string * Share)
  : list (string * list (string * KeyAndShare)) :=
  fold_left (add_pair entry.1 (public_key entry.2))
    (bundle_selections entry.2) acc.

(** *** The order of the steps *)

(** The place of a step in the election: the order the classes come in. *)
Definition step_rank (s : ElectionStep) : nat :=
  match s with
  | ProcessCreateElection => 0
  | ProcessStartKeyCeremony => 1
  | ProcessTrusteeElectionKeys => 2
  | ProcessTrusteeElectionPartialKeys _ => 3
  | ProcessTrusteeVerification _ => 4
  | ProcessStartVote => 5
  | ProcessCastVote => 6
  | ProcessStartTally => 7
  | ProcessTrusteeShare => 8
  end.

(** Whether the handler of a step finds in the payload what it
    deserializes; the steps that deserialize nothing find it in any. *)
Definition decodes (s : ElectionStep) (message_type : string) (p : Payload)
  : Prop :=
  match s with
  | ProcessTrusteeElectionKeys => is_Some (decode_PublicKeySet p)
  | ProcessTrusteeElectionPartialKeys _ => is_Some (decode_TrusteePartialKeys p)
  | ProcessTrusteeVerification _ => is_Some (decode_TrusteeVerification p)
  | ProcessCastVote =>
      message_type = "end_vote" ∨ is_Some (decode_CiphertextBallot p)
  | ProcessTrusteeShare => is_Some (decode_TrusteeShare p)
  | _ => True
  end.

(** A message the partial-keys step accepts and decodes. *)
Definition partial_keys_message (m : Content) : Prop :=
  message_type m = "key_ceremony.trustee_partial_election_keys"
  ∧ is_Some (decode_TrusteePartialKeys (content m)).

(** The guardians a list of partial-keys messages comes from. *)
Definition partial_keys_senders (messages : list Content) : list string :=
  omap (fun m => partial_keys_guardian_id
                 <$> decode_TrusteePartialKeys (content m)) messages.

(** The election parameters are in the context. *)
Definition parameters_built (context : BulletinBoardContext) : Prop :=
  is_Some (election_metadata context) ∧ is_Some (election_context context).

(** *** What a run emits *)

(** The outbound messages the dispatcher returns over a sequence of calls,
    in order. *)
Fixpoint emitted (self : BulletinBoard) (calls : list Call) : list Outbound :=
  match calls with
  | [] => []
  | c :: calls' =>
      match c with
      | Submit message_type message =>
          match (Wrapper_process_message self message_type message).2 with
          | Return (Some out) => [out]
          | _ => []
          end
      | _ => []
      end ++ emitted (call self c) calls'
  end.

(** Two bundles that hold the same entries under the same public key,
    however the entries are grouped into contests. *)
Definition same_entries (entry1 entry2 : string * Share) : Prop :=
  entry1.1 = entry2.1
  ∧ public_key entry1.2 = public_key entry2.2
  ∧ bundle_selections entry1.2 = bundle_selections entry2.2.

(** The ballots handed to [add_ballot] over a sequence of calls. *)
Definition ballots_added (calls : list Call) : list Payload :=
  omap (fun c => match c with AddBallot ballot => Some ballot | _ => None end)
    calls.

(** *** The key ceremony as a whole *)

(** A message the verification step accepts and decodes. *)
Definition verification_message (m : Content) : Prop :=
  message_type m = "key_ceremony.trustee_verification"
  ∧ is_Some (decode_TrusteeVerification (content m)).

(** The guardians a list of verification messages comes from. *)
Definition verification_senders (messages : list Content) : list string :=
  omap (fun m => verification_guardian_id
                 <$> decode_TrusteeVerification (content m)) messages.

(** Submitting each message of a list under its own type. *)
Definition submissions (messages : list Content) : list Call :=
  (fun m => Submit (message_type m) m) <$> messages.

(** The entries of [public_keys] for a list of guardian-key messages. *)
Definition recorded_keys (messages : list Content)
  : list (string * ElementModP) :=
  (fun k => (owner_id k, election_public_key k))
  <$> omap (fun m => decode_PublicKeySet (content m)) messages.

(** The [end_key_ceremony] message. *)
Definition end_key_ceremony (joint_key : ElementModP) : Outbound :=
  {| out_message_type := "end_key_ceremony";
     out_body := content_of (serialize_JointElectionKey joint_key) |}.
End Notions.

(** ** A small election

    Concrete collaborators over natural numbers, for running the engine:
    keys, ciphertexts and shares are numbers, combining is adding, the
    builder builds unless the joint key is zero, a ballot is valid when it
    is not zero, tallying a ballot adds it to the tally and raises on the
    ballot 13, and every tally has the one contest
    ["contest-1"] with the one selection ["selection-1"]. *)

Module Demo.

Inductive payload :=
| CreateElection (trustees : nat)
| Empty
| Keys (k : PublicKeySet nat)
| PartialKeys (k : TrusteePartialKeys)
| Verification (v : TrusteeVerification)
| ShareOf (s : TrusteeShare nat nat)
| Ballot (b : nat)
| JointKey (k : nat)
| CastOf (c : list (string * nat))
| ContestOf (object_id : string) (s : list (string * nat)).

Definition collaborators : Collaborators := {|
  ElementModP := nat;
  ElementModQ := nat;
  CiphertextBallot := nat;
  CiphertextAcceptedBallot := nat;
  BallotBoxState := unit;
  CAST := tt;
  from_ciphertext_ballot := fun b _ => b;
  ElectionBuilder := option nat;
  InternalElectionDescription := unit;
  CiphertextElectionContext := nat;
  set_public_key := fun k _ => Some k;
  build := fun b => k ← b; if Nat.eqb k 0 then None else Some (tt, k);
  crypto_extended_base_hash := fun e => e;
  elgamal_combine_public_keys := fun ks => foldr Nat.add 0 ks;
  ballot_is_valid_for_election := fun b _ _ => negb (Nat.eqb b 0);
  CiphertextTally := nat;
  CiphertextTallyContest := nat;
  CiphertextTallySelection := nat;
  PlaintextTallySelection := nat;
  new_CiphertextTally := fun _ _ _ => 0;
  cast := fun t => [("contest-1", t)];
  contest_object_id := fun _ => "contest-1";
  tally_selections := fun c => [("selection-1", c)];
  selection_object_id := fun _ => "selection-1";
  plaintext_object_id := fun _ => "selection-1";
  tally_ballot := fun b t =>
    if Nat.eqb b 13 then (t, Some LibraryError) else (Nat.add b t, None);
  CiphertextDecryptionSelection := nat;
  decrypt_selection_with_decryption_shares := fun selection shares _ =>
    Some (Nat.add selection (foldr Nat.add 0 ((fun s => s.2.2) <$> shares)));
  Payload := payload;
  election_skeleton := fun p =>
    match p with CreateElection n => Some (n, None) | _ => None end;
  decode_PublicKeySet := fun p =>
    match p with Keys k => Some k | _ => None end;
  decode_TrusteePartialKeys := fun p =>
    match p with PartialKeys k => Some k | _ => None end;
  decode_TrusteeVerification := fun p =>
    match p with Verification v => Some v | _ => None end;
  decode_TrusteeShare := fun p =>
    match p with ShareOf s => Some s | _ => None end;
  decode_CiphertextBallot := fun p =>
    match p with Ballot b => Some b | _ => None end;
  serialize_JointElectionKey := JointKey;
  serialize_cast := CastOf;
  serialize_PlaintextTallyContest := ContestOf
|}.

Definition message (message_type : string) (p : payload)
  : @Content collaborators :=
  @Build_Content collaborators message_type p.

Definition submit (message_type : string) (p : payload)
  : @Call collaborators :=
  Submit message_type (message message_type p).

Definition keys_of (g : string) (k : nat) : @Content collaborators :=
  message "key_ceremony.trustee_election_keys"
    (Keys {| owner_id := g; election_public_key := k |}).

Definition partial_keys_of (g : string) : @Content collaborators :=
  message "key_ceremony.trustee_partial_election_keys"
    (PartialKeys {| partial_keys_guardian_id := g |}).

Definition verification_of (g : string) : @Content collaborators :=
  message "key_ceremony.trustee_verification"
    (Verification {| verification_guardian_id := g |}).

(** A share bundle with a partial decryption of ["selection-1"]. *)
Definition bundle (g : string) (k s : nat) : TrusteeShare nat nat :=
  {| guardian_id := g; public_key := k;
     contests := [("contest-1", {| selections := [("selection-1", s)] |})] |}.

(** A share bundle that leaves ["selection-1"] out. *)
Definition bundle_without_selection (g : string) (k : nat)
  : TrusteeShare nat nat :=
  {| guardian_id := g; public_key := k;
     contests := [("contest-1", {| selections := [] |})] |}.

Definition share_of (s : TrusteeShare nat nat) : @Content collaborators :=
  message "tally.trustee_share" (ShareOf s).

Definition submit_message (m : @Content collaborators) : @Call collaborators :=
  Submit (message_type m) m.

Definition add_ballot_of (b : nat) : @Call collaborators :=
  @AddBallot collaborators (Ballot b).

(** The key ceremony of two guardians, up to the opening of the vote. *)
Definition key_ceremony : list (@Call collaborators) :=
  [ submit "create_election" (CreateElection 2);
    submit "start_key_ceremony" Empty;
    submit_message (keys_of "alice" 3);
    submit_message (keys_of "bob" 4);
    submit_message (partial_keys_of "alice");
    submit_message (partial_keys_of "bob");
    submit_message (verification_of "bob");
    submit_message (verification_of "alice");
    submit "start_vote" Empty ].

(** The board while the vote is open. *)
Definition voting : @BulletinBoard collaborators :=
  run BulletinBoard_init key_ceremony.

(** The board after the vote was closed and the tally started, with two
    ballots added to the tally. *)
Definition closing : list (@Call collaborators) :=
  [ submit "end_vote" Empty;
    add_ballot_of 5; add_ballot_of 6;
    submit "start_tally" Empty ].

Definition tallying : @BulletinBoard collaborators := run voting closing.


(** The board when the guardian-key step has just become active. *)
Definition collecting_keys : @BulletinBoard collaborators :=
  run BulletinBoard_init (take 2 key_ceremony).

(** The board when bob has sent his verification and alice has not. *)
Definition verifying : @BulletinBoard collaborators :=
  run BulletinBoard_init (take 7 key_ceremony).

(** The board when alice has sent her share bundle and bob has not. *)
Definition one_share : @BulletinBoard collaborators :=
  run tallying [ submit_message (share_of (bundle "alice" 3 1)) ].

(** Two guardians' share bundles, the second without ["selection-1"]. *)
Definition incomplete_shares : list (@Content collaborators) :=
  [ share_of (bundle "alice" 3 1);
    share_of (bundle_without_selection "bob" 4) ].


(** The board of an election announced with no guardians, at the
    guardian-key step. *)
Definition no_guardians : @BulletinBoard collaborators :=
  run BulletinBoard_init
    [ submit "create_election" (CreateElection 0);
      submit "start_key_ceremony" Empty ].

(** The board when both keys are recorded and no partial keys yet. *)
Definition keyed : @BulletinBoard collaborators :=
  run BulletinBoard_init (take 4 key_ceremony).

(** A key ceremony with keys that add up to zero, up to the last
    verification: the builder will not build. *)
Definition null_keys : list (@Call collaborators) :=
  [ submit "create_election" (CreateElection 2);
    submit "start_key_ceremony" Empty;
    submit_message (keys_of "alice" 0);
    submit_message (keys_of "bob" 0);
    submit_message (partial_keys_of "alice");
    submit_message (partial_keys_of "bob");
    submit_message (verification_of "bob") ].

(** Alice's bundle with its entries in two contests, and in one. *)
Definition two_contests : TrusteeShare nat nat :=
  {| guardian_id := "alice"; public_key := 3;
     contests :=
       [("contest-1", {| selections := [("selection-1", 1)] |});
        ("contest-2", {| selections := [("selection-2", 8);
                                        ("selection-1", 9)] |})] |}.

Definition one_contest : TrusteeShare nat nat :=
  {| guardian_id := "alice"; public_key := 3;
     contests :=
       [("contest-9", {| selections := [("selection-1", 1);
                                        ("selection-2", 8);
                                        ("selection-1", 9)] |})] |}.

(** Collaborators whose decryption keeps, as the library's plaintext
    selection does with its list of shares, the guardians in the order their
    pairs come in: a plaintext is that list of guardians, a payload is the
    plaintexts of a contest. *)
Definition listing : Collaborators := {|
  ElementModP := nat;
  ElementModQ := unit;
  CiphertextBallot := unit;
  CiphertextAcceptedBallot := unit;
  BallotBoxState := unit;
  CAST := tt;
  from_ciphertext_ballot := fun b _ => b;
  ElectionBuilder := unit;
  InternalElectionDescription := unit;
  CiphertextElectionContext := unit;
  set_public_key := fun _ b => b;
  build := fun _ => Some (tt, tt);
  crypto_extended_base_hash := fun e => e;
  elgamal_combine_public_keys := fun ks => foldr Nat.add 0 ks;
  ballot_is_valid_for_election := fun _ _ _ => true;
  CiphertextTally := unit;
  CiphertextTallyContest := unit;
  CiphertextTallySelection := unit;
  PlaintextTallySelection := list string;
  new_CiphertextTally := fun _ _ _ => tt;
  cast := fun _ => [("contest-1", tt)];
  contest_object_id := fun _ => "contest-1";
  tally_selections := fun _ => [("selection-1", tt)];
  selection_object_id := fun _ => "selection-1";
  plaintext_object_id := fun _ => "selection-1";
  tally_ballot := fun _ t => (t, None);
  CiphertextDecryptionSelection := nat;
  decrypt_selection_with_decryption_shares := fun _ shares _ =>
    Some (shares.*1);
  Payload := list (string * list string);
  election_skeleton := fun _ => None;
  decode_PublicKeySet := fun _ => None;
  decode_TrusteePartialKeys := fun _ => None;
  decode_TrusteeVerification := fun _ => None;
  decode_TrusteeShare := fun _ => None;
  decode_CiphertextBallot := fun _ => None;
  serialize_JointElectionKey := fun _ => [];
  serialize_cast := fun _ => [];
  serialize_PlaintextTallyContest := fun _ plaintexts => plaintexts
|}.

(** A context of [listing] at the tally, with the given bundles recorded. *)
Definition listing_context (recorded : list (string * TrusteeShare nat nat))
  : @BulletinBoardContext listing :=
  @Build_BulletinBoardContext listing
    [("alice", 3); ("bob", 4)] false recorded (Some tt) (Some 2) (Some tt)
    (Some tt) (Some tt).

End Demo.

(** * Properties *)

(** ** Dictionaries *)

Section DictFacts.
Context {V : Type}.
Implicit Types (k : string) (v : V) (d : list (string * V)).

Lemma dict_keys_set_in k v d :
  k ∈ dict_keys d → dict_keys (dict_set k v d) = dict_keys d.
Proof.
  unfold dict_keys. induction d as [|[k' v'] d IH]; simpl.
  - intros Hin. by apply elem_of_nil in Hin.
  - intros Hin. destruct (decide (k = k')) as [->|Hne]; [done|].
    simpl. f_equal. apply IH.
    apply elem_of_cons in Hin as [?|?]; [congruence|done].
Qed.

Lemma dict_keys_set_notin k v d :
  k ∉ dict_keys d → dict_keys (dict_set k v d) = dict_keys d ++ [k].
Proof.
  unfold dict_keys. induction d as [|[k' v'] d IH]; simpl; [done|].
  intros Hnotin. apply not_elem_of_cons in Hnotin as [Hne Hnotin].
  destruct (decide (k = k')); [done|]. simpl. f_equal. by apply IH.
Qed.

Lemma dict_set_length_in k v d :
  k ∈ dict_keys d → length (dict_set k v d) = length d.
Proof.
  intros Hin. apply (dict_keys_set_in k v) in Hin.
  apply (f_equal length) in Hin. unfold dict_keys in Hin.
  by rewrite !length_fmap in Hin.
Qed.

Lemma dict_set_length_notin k v d :
  k ∉ dict_keys d → length (dict_set k v d) = S (length d).
Proof.
  intros Hnotin. apply (dict_keys_set_notin k v) in Hnotin.
  apply (f_equal length) in Hnotin. unfold dict_keys in Hnotin.
  rewrite length_app, !length_fmap in Hnotin. simpl in Hnotin. lia.
Qed.

Lemma dict_set_length_le k v d : length d ≤ length (dict_set k v d).
Proof.
  destruct (decide (k ∈ dict_keys d)).
  - by rewrite dict_set_length_in.
  - rewrite dict_set_length_notin by done. lia.
Qed.

Lemma dict_keys_set_NoDup k v d :
  NoDup (dict_keys d) → NoDup (dict_keys (dict_set k v d)).
Proof.
  intros Hd. destruct (decide (k ∈ dict_keys d)).
  - by rewrite dict_keys_set_in.
  - rewrite dict_keys_set_notin by done.
    apply NoDup_app. split_and!; [done| |apply NoDup_singleton].
    intros x Hx Hx'. apply list_elem_of_singleton in Hx'. by subst.
Qed.

Lemma dict_keys_set_elements k v d :
  list_to_set (C := gset string) (dict_keys (dict_set k v d))
  = {[ k ]} ∪ list_to_set (dict_keys d).
Proof.
  destruct (decide (k ∈ dict_keys d)) as [Hin|Hnotin].
  - rewrite dict_keys_set_in by done.
    apply (elem_of_list_to_set (C := gset string)) in Hin. set_solver.
  - rewrite dict_keys_set_notin by done.
    rewrite list_to_set_app_L. simpl. set_solver.
Qed.

Lemma dict_length_size d :
  NoDup (dict_keys d) →
  length d = size (list_to_set (C := gset string) (dict_keys d)).
Proof.
  intros Hd. rewrite size_list_to_set by done.
  unfold dict_keys. by rewrite length_fmap.
Qed.

Lemma dict_get_set_eq k v d : dict_get k (dict_set k v d) = Some v.
Proof.
  induction d as [|[k' v'] d IH]; simpl.
  - by rewrite decide_True.
  - destruct (decide (k = k')); simpl.
    + by rewrite decide_True.
    + by rewrite decide_False.
Qed.

Lemma dict_get_set_ne k k' v d :
  k ≠ k' → dict_get k' (dict_set k v d) = dict_get k' d.
Proof.
  intros Hne. induction d as [|[k0 v0] d IH]; simpl.
  - by rewrite decide_False.
  - destruct (decide (k = k0)) as [->|]; simpl.
    + by rewrite !decide_False.
    + destruct (decide (k' = k0)); [done|apply IH].
Qed.

Lemma dict_get_None k d : k ∉ dict_keys d → dict_get k d = None.
Proof.
  unfold dict_keys. induction d as [|[k' v'] d IH]; simpl; [done|].
  intros Hnotin. apply not_elem_of_cons in Hnotin as [Hne Hnotin].
  rewrite decide_False by done. by apply IH.
Qed.

Lemma dict_get_is_Some k d : k ∈ dict_keys d → is_Some (dict_get k d).
Proof.
  unfold dict_keys. induction d as [|[k' v'] d IH]; simpl.
  - intros Hin. by apply elem_of_nil in Hin.
  - intros Hin. destruct (decide (k = k')); [by eexists|].
    apply IH. apply elem_of_cons in Hin as [?|?]; [congruence|done].
Qed.

Lemma dict_set_set_eq k v v0 d : dict_set k v (dict_set k v0 d) = dict_set k v d.
Proof.
  induction d as [|[k' v'] d IH]; simpl.
  - by rewrite decide_True.
  - destruct (decide (k = k')) as [->|Hne]; simpl.
    + by rewrite decide_True.
    + rewrite decide_False by done. by rewrite IH.
Qed.

Lemma dict_set_notin_app k v d :
  k ∉ dict_keys d → dict_set k v d = d ++ [(k, v)].
Proof.
  unfold dict_keys. induction d as [|[k' v'] d IH]; simpl; [done|].
  intros Hnotin. apply not_elem_of_cons in Hnotin as [Hne Hnotin].
  rewrite decide_False by done. by rewrite IH.
Qed.
End DictFacts.

(** ** The guardian-key phase *)

Section KeysPhase.
Context `{EG : Collaborators}.
Implicit Types (bb : BulletinBoard) (m : Content).

Lemma submit_all_cons bb m messages :
  submit_all bb (m :: messages)
  = submit_all (Wrapper_process_message bb (message_type m) m).1 messages.
Proof. reflexivity. Qed.

(** Messages the active step skips change nothing. *)
Lemma submit_all_skipped messages : ∀ bb,
  Forall (fun m => skip_message (step bb) (message_type m) = true) messages →
  submit_all bb messages = bb ∧ count_transitions bb messages = 0.
Proof.
  induction messages as [|m messages IH]; intros bb Hall; [done|].
  apply Forall_cons in Hall as [Hm Hall].
  rewrite submit_all_cons. simpl.
  unfold transitions, Wrapper_process_message. rewrite Hm. simpl.
  by apply IH.
Qed.

(** One guardian-key message through the dispatcher. *)
Lemma keys_message_step bb m N pks :
  step bb = ProcessTrusteeElectionKeys →
  number_of_guardians (context bb) = Some N →
  message_type m = "key_ceremony.trustee_election_keys" →
  decode_PublicKeySet (content m) = Some pks →
  let recorded :=
    dict_set (owner_id pks) (election_public_key pks)
      (public_keys (context bb)) in
  Wrapper_process_message bb (message_type m) m
  = ({| context := set_public_keys recorded (context bb);
        step := if decide (length recorded = N)
                then ProcessTrusteeElectionPartialKeys ∅
                else ProcessTrusteeElectionKeys |}, Return None)
  ∧ transitions bb (message_type m) m = bool_decide (length recorded = N).
Proof.
  intros Hstep HN Htype Hdec recorded.
  unfold Wrapper_process_message, transitions.
  rewrite Hstep, Htype. simpl.
  unfold ProcessTrusteeElectionKeys_process_message, deserialize.
  rewrite Hdec. simpl. rewrite HN. simpl. fold recorded.
  destruct (decide (length recorded = N)); simpl.
  - by rewrite bool_decide_eq_true_2.
  - by rewrite bool_decide_eq_false_2.
Qed.

(** The phase from any state below quorum: the step changes, once, when
    the number of distinct guardians seen reaches [N], and not before. *)
Lemma keys_phase_run N messages : ∀ bb,
  step bb = ProcessTrusteeElectionKeys →
  number_of_guardians (context bb) = Some N →
  NoDup (dict_keys (public_keys (context bb))) →
  length (public_keys (context bb)) < N →
  Forall keys_message messages →
  let seen : gset string :=
    list_to_set (dict_keys (public_keys (context bb)))
    ∪ list_to_set (senders messages) in
  (size seen < N →
     step (submit_all bb messages) = ProcessTrusteeElectionKeys
     ∧ count_transitions bb messages = 0)
  ∧ (N ≤ size seen →
     step (submit_all bb messages) = ProcessTrusteeElectionPartialKeys ∅
     ∧ count_transitions bb messages = 1).
Proof.
  induction messages as [|m messages IH]; intros bb Hstep HN Hnodup Hlt Hall seen.
  - subst seen. simpl. rewrite union_empty_r_L.
    rewrite <- dict_length_size by done. split; [done|lia].
  - apply Forall_cons in Hall as [[Htype [pks Hdec]] Hall].
    destruct (keys_message_step bb m N pks Hstep HN Htype Hdec) as [Hrun Htr].
    rewrite submit_all_cons. cbn [count_transitions].
    rewrite Htr, Hrun. clear Htr Hrun. cbn [fst].
    set (recorded := dict_set (owner_id pks) (election_public_key pks)
                       (public_keys (context bb))).
    assert (Hnodup' : NoDup (dict_keys recorded))
      by by apply dict_keys_set_NoDup.
    assert (Hseen : seen = list_to_set (dict_keys recorded)
                           ∪ list_to_set (senders messages)).
    { subst seen recorded. rewrite dict_keys_set_elements.
      unfold senders. simpl. rewrite Hdec. simpl. set_solver. }
    destruct (decide (length recorded = N)) as [Heq|Hne].
    + rewrite bool_decide_eq_true_2 by done.
      destruct (submit_all_skipped messages
        {| context := set_public_keys recorded (context bb);
           step := ProcessTrusteeElectionPartialKeys ∅ |}) as [-> ->].
      { eapply Forall_impl; [exact Hall|]. intros m' [-> _]. reflexivity. }
      split; [|done]. intros Hsize. exfalso.
      assert (size (list_to_set (C := gset string) (dict_keys recorded))
              ≤ size seen).
      { apply subseteq_size. rewrite Hseen. set_solver. }
      rewrite <- dict_length_size in * by done. lia.
    + rewrite bool_decide_eq_false_2 by done.
      assert (Hlt' : length recorded < N).
      { subst recorded.
        destruct (decide (owner_id pks ∈ dict_keys (public_keys (context bb)))).
        - rewrite dict_set_length_in in * by done. lia.
        - rewrite dict_set_length_notin in * by done. lia. }
      specialize (IH {| context := set_public_keys recorded (context bb);
                        step := ProcessTrusteeElectionKeys |}
                    eq_refl HN Hnodup' Hlt' Hall).
      cbn [context public_keys set_public_keys] in IH.
      rewrite <- Hseen in IH. simpl. exact IH.
Qed.
End KeysPhase.

Section KeyCeremony.
Context `{EG : Collaborators}.

(** C2. While [ProcessTrusteeVerification] is the active step: when the
    phase-local set of guardians, with the sender of the message added,
    has reached [number_of_guardians], the handler combines the public
    keys recorded in the context into the joint key, sets it on the
    election builder, stores the election parameters the builder then
    builds, returns one [end_key_ceremony] message that carries the joint
    key and names [ProcessStartVote] as next step; the context it leaves
    has the builder with the joint key and the built parameters in it, and
    the recorded keys, the shares, the tally, the number of guardians and
    [has_joint_key] as they were. Below that number it returns no message
    and no next step and leaves the context alone. *)
Theorem verification_quorum
    (received : gset string) (message : Content)
    (context : BulletinBoardContext)
    (v : TrusteeVerification) (N : nat) :
  decode_TrusteeVerification (content message) = Some v →
  number_of_guardians context = Some N →
  let received' := received ∪ {[ verification_guardian_id v ]} in
  let joint_key :=
    elgamal_combine_public_keys (dict_values (public_keys context)) in
  (N ≤ size received' →
   ∀ builder metadata ectx,
     election_builder context = Some builder →
     build (set_public_key joint_key builder) = Some (metadata, ectx) →
     ProcessTrusteeVerification_process_message received
       "key_ceremony.trustee_verification" message context
     = (ProcessTrusteeVerification received',
        {| public_keys := public_keys context;
           has_joint_key := has_joint_key context;
           shares := shares context;
           tally := tally context;
           number_of_guardians := number_of_guardians context;
           election_builder := Some (set_public_key joint_key builder);
           election_metadata := Some metadata;
           election_context := Some ectx |},
        Return (Some {| out_message_type := "end_key_ceremony";
                        out_body :=
                          content_of (serialize_JointElectionKey joint_key) |},
                Some ProcessStartVote)))
  ∧ (size received' < N →
     ProcessTrusteeVerification_process_message received
       "key_ceremony.trustee_verification" message context
     = (ProcessTrusteeVerification received', context,
        Return (None, None))).
Proof.
  intros Hdec HN received' joint_key.
  unfold ProcessTrusteeVerification_process_message, deserialize.
  rewrite Hdec, HN. fold received'. split.
  - intros Hquorum builder metadata ectx Hbuilder Hbuild.
    rewrite decide_False by lia. fold joint_key.
    rewrite Hbuilder, Hbuild.
    unfold set_election_parameters, set_election_builder. simpl.
    by rewrite HN.
  - intros Hbelow. by rewrite decide_True.
Qed.
End KeyCeremony.

Section Voting.
Context `{EG : Collaborators}.

(** C4. [ProcessCastVote] handling a [vote.cast] message raises
    [InvalidBallot] exactly when the ballot decodes and
    [ballot_is_valid_for_election], given the ballot and the election
    parameters of the context, returns false; it returns no message and no
    next step exactly when the validation returns true; and in either case
    the context, the tally with it, and the step are as they were. *)
Theorem cast_vote_invalid_ballot
    (message : Content) (context : BulletinBoardContext) :
  let handled :=
    ProcessCastVote_process_message "vote.cast" message context in
  handled.1 = (ProcessCastVote, context)
  ∧ (handled.2 = Raise InvalidBallot ↔
     ∃ ballot metadata ectx,
       decode_CiphertextBallot (content message) = Some ballot
       ∧ election_metadata context = Some metadata
       ∧ election_context context = Some ectx
       ∧ ballot_is_valid_for_election ballot metadata ectx = false)
  ∧ (handled.2 = Return (None, None) ↔
     ∃ ballot metadata ectx,
       decode_CiphertextBallot (content message) = Some ballot
       ∧ election_metadata context = Some metadata
       ∧ election_context context = Some ectx
       ∧ ballot_is_valid_for_election ballot metadata ectx = true).
Proof.
  unfold ProcessCastVote_process_message, deserialize. simpl.
  split; [done|].
  destruct (decode_CiphertextBallot (content message)) as [ballot|];
    destruct (election_metadata context) as [metadata|];
    destruct (election_context context) as [ectx|]; simpl;
    try (split; (split; [done|intros (?&?&?&?&?&?&?); congruence])).
  destruct (ballot_is_valid_for_election ballot metadata ectx) eqn:Hvalid;
    simpl; (split; split); try done;
    try (intros (?&?&?&?&?&?&?); congruence);
    intros _; exists ballot, metadata, ectx; done.
Qed.
End Voting.

(** ** Reachable boards *)

Section Reachable.
Context `{EG : Collaborators}.
Implicit Types (bb : BulletinBoard) (c : Call).

(** Closes the cases of an invariant proof once the handler is run. *)
Ltac by_invariant :=
  unfold invariant; simpl in *; split_and?;
  try match goal with H : _ ∧ _ |- _ => destruct H end;
  try done; try (by apply dict_keys_set_NoDup); try (by eexists).

Lemma invariant_init : invariant BulletinBoard_init.
Proof. repeat split; simpl; constructor. Qed.

Lemma invariant_submit bb message_type message :
  invariant bb →
  invariant (Wrapper_process_message bb message_type message).1.
Proof.
  intros (Hflag & Hkeys & Hshares & Hstep).
  unfold Wrapper_process_message.
  destruct (skip_message (step bb) message_type); [done|].
  destruct bb as [context s]. simpl in *.
  destruct s; simpl in Hstep |- *.
  - unfold ProcessCreateElection_process_message, build_election.
    destruct (election_skeleton (content message)) as [[n b]|];
      by_invariant.
  - destruct Hstep as (Htally & Hempty & [n Hn]).
    unfold invariant. simpl. split_and!; try done.
    exists n. rewrite Hempty. simpl. split; [done|lia].
  - destruct Hstep as (Htally & n & Hn & Hbelow).
    unfold ProcessTrusteeElectionKeys_process_message, deserialize.
    destruct (decode_PublicKeySet (content message)) as [pks|].
    2:{ unfold invariant. simpl. split_and!; try done. by exists n. }
    simpl. rewrite Hn. simpl.
    destruct (decide _) as [Heq|Hne]; unfold invariant; simpl;
      (split_and!; try done; try (by apply dict_keys_set_NoDup)).
    + by rewrite Heq.
    + exists n. split; [done|]. intros Hn1. specialize (Hbelow Hn1).
      destruct (decide (owner_id pks ∈ dict_keys (public_keys context))).
      * rewrite dict_set_length_in in * by done. lia.
      * rewrite dict_set_length_notin in * by done. lia.
  - unfold ProcessTrusteeElectionPartialKeys_process_message, deserialize.
    destruct (decode_TrusteePartialKeys (content message));
      [|by_invariant].
    destruct Hstep as [Htally Hn]. rewrite Hn. simpl.
    destruct (decide _); by_invariant.
  - unfold ProcessTrusteeVerification_process_message, deserialize.
    destruct (decode_TrusteeVerification (content message));
      [|by_invariant].
    destruct Hstep as [Htally Hn]. rewrite Hn.
    destruct (decide _); [by_invariant|].
    destruct (election_builder context) as [builder|]; [|by_invariant].
    destruct (build _) as [[metadata ectx]|]; by_invariant.
  - by_invariant.
  - unfold ProcessCastVote_process_message, deserialize.
    destruct Hstep as [Htally Hn].
    destruct (decide _).
    + destruct (election_metadata context), (election_context context);
        by_invariant.
    + simpl.
      destruct (decode_CiphertextBallot (content message)); simpl;
        [|by_invariant].
      destruct (election_metadata context); simpl; [|by_invariant].
      destruct (election_context context); simpl; [|by_invariant].
      destruct (ballot_is_valid_for_election _ _ _); by_invariant.
  - by_invariant.
  - unfold ProcessTrusteeShare_process_message, deserialize.
    destruct (decode_TrusteeShare (content message)) as [share|];
      [|by_invariant].
    destruct Hstep as [Htally Hn]. simpl. rewrite Hn. simpl.
    destruct (decide _); simpl; [by_invariant|].
    destruct (tally_results _); by_invariant.
Qed.

Lemma invariant_add_ballot bb ballot :
  invariant bb → invariant (add_ballot bb ballot).1.
Proof.
  intros (Hflag & Hkeys & Hshares & Hstep). unfold add_ballot, deserialize.
  destruct (decode_CiphertextBallot ballot); [|done].
  destruct (tally (context bb)) as [t|] eqn:Ht; [|done].
  simpl. split_and!; try done.
  destruct (step bb); simpl in *; try (destruct Hstep; congruence);
    try congruence.
  - destruct Hstep. split; [by eexists|done].
  - destruct Hstep. split; [by eexists|done].
Qed.

Lemma invariant_call bb c : invariant bb → invariant (call bb c).
Proof.
  destruct c; simpl;
    [apply invariant_submit|apply invariant_add_ballot|done].
Qed.

Lemma run_snoc bb calls c : run bb (calls ++ [c]) = call (run bb calls) c.
Proof. unfold run. by rewrite fold_left_app. Qed.

Lemma invariant_run calls : ∀ bb, invariant bb → invariant (run bb calls).
Proof.
  induction calls as [|c calls IH] using rev_ind; intros bb Hbb; [done|].
  rewrite run_snoc. by apply invariant_call, IH.
Qed.

Lemma reachable_invariant bb : reachable bb → invariant bb.
Proof. intros [calls ->]. apply invariant_run, invariant_init. Qed.

Lemma reachable_call bb c : reachable bb → reachable (call bb c).
Proof. intros [calls ->]. exists (calls ++ [c]). by rewrite run_snoc. Qed.

(** C9. [has_joint_key] is [False] in the context of a new bulletin board
    and no handler and no side-channel operation assigns it: on every
    board that a sequence of messages and side-channel calls leads to it is
    [False], also on those where the joint key has been combined and the
    election parameters built with it. *)
Theorem has_joint_key_stays_false bb :
  reachable bb → has_joint_key (context bb) = false.
Proof. intros Hbb. by destruct (reachable_invariant bb Hbb) as [? _]. Qed.
End Reachable.

Section GuardianKeys.
Context `{EG : Collaborators}.

(** C1. On every board a sequence of calls leads to, while
    [ProcessTrusteeElectionKeys] is the active step of an election with
    [N >= 1] guardians: the guardians seen are those with a key recorded
    (none when the step has just become active) and those further
    guardian-key messages come from. Messages, in whatever order and with
    whatever repetitions, that bring the guardians seen to [N] distinct ones
    make the dispatcher change step exactly once, to
    [ProcessTrusteeElectionPartialKeys]; messages that leave them fewer than
    [N] leave the step as it is; and a message from a guardian that already
    has a key recorded replaces that key and leaves the recorded guardians,
    and so their number, as they were. *)
Theorem guardian_keys_quorum
    (bb : BulletinBoard) (N : nat) (messages : list Content) :
  reachable bb →
  step bb = ProcessTrusteeElectionKeys →
  number_of_guardians (context bb) = Some N →
  1 ≤ N →
  Forall keys_message messages →
  let seen : gset string :=
    list_to_set (dict_keys (public_keys (context bb)))
    ∪ list_to_set (senders messages) in
  (size seen = N →
     step (submit_all bb messages) = ProcessTrusteeElectionPartialKeys ∅
     ∧ count_transitions bb messages = 1)
  ∧ (size seen < N →
     step (submit_all bb messages) = ProcessTrusteeElectionKeys
     ∧ count_transitions bb messages = 0)
  ∧ (∀ (m : Content) pks,
       decode_PublicKeySet (content m) = Some pks →
       owner_id pks ∈ dict_keys (public_keys (context bb)) →
       let context' :=
         (ProcessTrusteeElectionKeys_process_message (message_type m) m
            (context bb)).1.2 in
       dict_get (owner_id pks) (public_keys context')
       = Some (election_public_key pks)
       ∧ (∀ g, g ≠ owner_id pks →
            dict_get g (public_keys context')
            = dict_get g (public_keys (context bb)))
       ∧ dict_keys (public_keys context') = dict_keys (public_keys (context bb))
       ∧ length (public_keys context') = length (public_keys (context bb))).
Proof.
  intros Hbb Hstep HN HN1 Hall seen.
  destruct (reachable_invariant bb Hbb) as (_ & Hnodup & _ & Hinv).
  rewrite Hstep in Hinv. destruct Hinv as (_ & n & Hn & Hlt).
  assert (n = N) as -> by congruence. specialize (Hlt HN1).
  destruct (keys_phase_run N messages bb Hstep HN Hnodup Hlt Hall)
    as [Hbelow Hquorum].
  fold seen in Hbelow, Hquorum. split_and!.
  - intros Heq. apply Hquorum. lia.
  - exact Hbelow.
  - intros m pks Hdec Hin context'. subst context'.
    unfold ProcessTrusteeElectionKeys_process_message, deserialize.
    rewrite Hdec. simpl. split_and!.
    + apply dict_get_set_eq.
    + intros g Hne. by apply dict_get_set_ne.
    + by apply dict_keys_set_in.
    + by apply dict_set_length_in.
Qed.
End GuardianKeys.

(** ** After the key ceremony *)

Section AfterKeyCeremony.
Context `{EG : Collaborators}.
Implicit Types (bb : BulletinBoard) (c : Call).

(** Once the key ceremony has ended, no call leads back into it and no
    call touches what it left in the context. *)
Lemma ceremony_outcome_call bb c :
  key_ceremony_ended (step bb) = true →
  key_ceremony_ended (step (call bb c)) = true
  ∧ ceremony_outcome (context (call bb c)) = ceremony_outcome (context bb).
Proof.
  intros Hended. destruct c as [message_type message|ballot|]; simpl.
  - unfold Wrapper_process_message.
    destruct (skip_message (step bb) message_type); [done|].
    destruct bb as [context s]. simpl in *.
    destruct s; try discriminate Hended; simpl; try done.
    + unfold ProcessCastVote_process_message, deserialize.
      destruct (decide _).
      * by destruct (election_metadata context), (election_context context).
      * simpl. destruct (decode_CiphertextBallot _); simpl; [|done].
        destruct (election_metadata context); simpl; [|done].
        destruct (election_context context); simpl; [|done].
        by destruct (ballot_is_valid_for_election _ _ _).
    + unfold ProcessTrusteeShare_process_message, deserialize.
      destruct (decode_TrusteeShare _); [|done]. simpl.
      destruct (number_of_guardians context); simpl; [|done].
      destruct (decide _); simpl; [done|].
      by destruct (tally_results _).
  - unfold add_ballot, deserialize.
    destruct (decode_CiphertextBallot ballot); [|done].
    by destruct (tally (context bb)).
  - done.
Qed.

Lemma ceremony_outcome_run calls : ∀ bb,
  key_ceremony_ended (step bb) = true →
  key_ceremony_ended (step (run bb calls)) = true
  ∧ ceremony_outcome (context (run bb calls)) = ceremony_outcome (context bb).
Proof.
  induction calls as [|c calls IH]; intros bb Hended; [done|].
  destruct (ceremony_outcome_call bb c Hended) as [Hended' Hsame].
  destruct (IH (call bb c) Hended') as [? Hrun].
  split; [done|]. simpl. by rewrite Hrun.
Qed.

(** From [create_election] on the election builder is in the context. *)
Lemma builder_present_call bb c :
  (1 ≤ step_rank (step bb) → is_Some (election_builder (context bb))) →
  1 ≤ step_rank (step (call bb c)) →
  is_Some (election_builder (context (call bb c))).
Proof.
  intros Hpresent.
  destruct c as [message_type message|ballot|]; simpl; [| |done].
  - unfold Wrapper_process_message.
    destruct (skip_message (step bb) message_type); [done|].
    destruct bb as [context s]. simpl in *.
    destruct s; simpl in *.
    + unfold ProcessCreateElection_process_message, build_election.
      destruct (election_skeleton (content message)) as [[n b]|]; simpl;
        [by eexists|lia].
    + intros _. apply Hpresent. lia.
    + unfold ProcessTrusteeElectionKeys_process_message, deserialize.
      destruct (decode_PublicKeySet (content message)); simpl;
        [|intros _; apply Hpresent; lia].
      destruct (number_of_guardians context); simpl;
        [|intros _; apply Hpresent; lia].
      destruct (decide _); simpl; intros _; apply Hpresent; lia.
    + unfold ProcessTrusteeElectionPartialKeys_process_message, deserialize.
      destruct (decode_TrusteePartialKeys (content message)); simpl;
        [|intros _; apply Hpresent; lia].
      destruct (number_of_guardians context); simpl;
        [|intros _; apply Hpresent; lia].
      destruct (decide _); simpl; intros _; apply Hpresent; lia.
    + unfold ProcessTrusteeVerification_process_message, deserialize.
      destruct (decode_TrusteeVerification (content message)); simpl;
        [|intros _; apply Hpresent; lia].
      destruct (number_of_guardians context); simpl;
        [|intros _; apply Hpresent; lia].
      destruct (decide _); simpl; [intros _; apply Hpresent; lia|].
      destruct (election_builder context) eqn:Hbuilder; simpl;
        [|intros _; rewrite Hbuilder; apply Hpresent; lia].
      destruct (build _) as [[metadata ectx]|]; simpl; by eexists.
    + intros _. apply Hpresent. lia.
    + unfold ProcessCastVote_process_message, deserialize.
      destruct (decide _).
      * destruct (election_metadata context), (election_context context);
          simpl; intros _; apply Hpresent; lia.
      * simpl. destruct (decode_CiphertextBallot _); simpl;
          [|intros _; apply Hpresent; lia].
        destruct (election_metadata context); simpl;
          [|intros _; apply Hpresent; lia].
        destruct (election_context context); simpl;
          [|intros _; apply Hpresent; lia].
        destruct (ballot_is_valid_for_election _ _ _); simpl;
          intros _; apply Hpresent; lia.
    + intros _. apply Hpresent. lia.
    + unfold ProcessTrusteeShare_process_message, deserialize.
      destruct (decode_TrusteeShare _); simpl;
        [|intros _; apply Hpresent; lia].
      destruct (number_of_guardians context); simpl;
        [|intros _; apply Hpresent; lia].
      destruct (decide _); simpl; [intros _; apply Hpresent; lia|].
      destruct (tally_results _); simpl; intros _; apply Hpresent; lia.
  - unfold add_ballot, deserialize.
    destruct (decode_CiphertextBallot ballot); simpl; [|done].
    destruct (tally (context bb)); simpl; done.
Qed.

Lemma builder_present_reachable bb :
  reachable bb →
  1 ≤ step_rank (step bb) → is_Some (election_builder (context bb)).
Proof.
  intros [calls ->].
  induction calls as [|c calls IH] using rev_ind; [simpl; lia|].
  rewrite run_snoc. by apply builder_present_call.
Qed.

(** C5. On every board a sequence of calls leads to with the verification
    step active: the recorded public keys are those of exactly
    [number_of_guardians] distinct guardians, and when a verification
    brings the guardians received to [number_of_guardians], the dispatcher,
    with a builder that builds, answers with the [end_key_ceremony] message
    whose joint key is the combination of the values of [public_keys] as
    recorded at that moment, sets that key on the builder, stores the
    parameters built from it and moves to [ProcessStartVote]; whenever the
    verification handler returns a message it is that one. Once the key
    ceremony has ended, a guardian-key message changes nothing at all, and
    no sequence of calls changes the recorded keys, the builder that holds
    the joint key or the election parameters built from it. *)
Theorem joint_key_from_recorded_keys bb :
  reachable bb →
  (∀ received message v,
     step bb = ProcessTrusteeVerification received →
     decode_TrusteeVerification (content message) = Some v →
     let keys := public_keys (context bb) in
     let joint_key := elgamal_combine_public_keys (dict_values keys) in
     number_of_guardians (context bb) = Some (length (dict_values keys))
     ∧ NoDup (dict_keys keys)
     ∧ ∃ builder,
         election_builder (context bb) = Some builder
         ∧ (length (dict_values keys)
            ≤ size (received ∪ {[ verification_guardian_id v ]}) →
            ∀ metadata ectx,
              build (set_public_key joint_key builder)
              = Some (metadata, ectx) →
              Wrapper_process_message bb "key_ceremony.trustee_verification"
                message
              = ({| context :=
                      {| public_keys := keys;
                         has_joint_key := has_joint_key (context bb);
                         shares := shares (context bb);
                         tally := tally (context bb);
                         number_of_guardians :=
                           Some (length (dict_values keys));
                         election_builder :=
                           Some (set_public_key joint_key builder);
                         election_metadata := Some metadata;
                         election_context := Some ectx |};
                    step := ProcessStartVote |},
                 Return
                   (Some {| out_message_type := "end_key_ceremony";
                            out_body :=
                              content_of
                                (serialize_JointElectionKey joint_key) |}))))
  ∧ (∀ received message step' context' out next,
       step bb = ProcessTrusteeVerification received →
       process_message (step bb) "key_ceremony.trustee_verification" message
         (context bb)
       = (step', context', Return (Some out, next)) →
       let keys := public_keys (context bb) in
       let joint_key := elgamal_combine_public_keys (dict_values keys) in
       number_of_guardians (context bb) = Some (length (dict_values keys))
       ∧ NoDup (dict_keys keys)
       ∧ out = {| out_message_type := "end_key_ceremony";
                  out_body :=
                    content_of (serialize_JointElectionKey joint_key) |}
       ∧ next = Some ProcessStartVote
       ∧ public_keys context' = keys
       ∧ ∃ builder metadata ectx,
           election_builder (context bb) = Some builder
           ∧ build (set_public_key joint_key builder) = Some (metadata, ectx)
           ∧ election_builder context'
             = Some (set_public_key joint_key builder)
           ∧ election_metadata context' = Some metadata
           ∧ election_context context' = Some ectx)
  ∧ (key_ceremony_ended (step bb) = true →
     (∀ message,
        Wrapper_process_message bb "key_ceremony.trustee_election_keys"
          message = (bb, Return None))
     ∧ ∀ calls,
         key_ceremony_ended (step (run bb calls)) = true
         ∧ ceremony_outcome (context (run bb calls))
           = ceremony_outcome (context bb)).
Proof.
  intros Hbb.
  destruct (reachable_invariant bb Hbb) as (_ & Hkeys & _ & Hstep).
  split_and!.
  - intros received message v Hs Hdec keys joint_key.
    rewrite Hs in Hstep. simpl in Hstep. destruct Hstep as [_ Hn].
    destruct (builder_present_reachable bb Hbb) as [builder Hbuilder].
    { rewrite Hs. simpl. lia. }
    assert (Hlen : length (dict_values keys) = length keys)
      by (unfold dict_values; by rewrite length_fmap).
    rewrite Hlen. split_and!; [done|done|].
    exists builder. split; [done|].
    intros Hquorum metadata ectx Hbuild.
    unfold Wrapper_process_message. rewrite Hs. simpl.
    unfold ProcessTrusteeVerification_process_message, deserialize.
    rewrite Hdec, Hn. rewrite decide_False by (fold keys; lia).
    rewrite Hbuilder. fold keys. fold joint_key. rewrite Hbuild.
    unfold set_election_parameters, set_election_builder. simpl.
    by rewrite Hn.
  - intros received message step' context' out next Hs Hrun keys joint_key.
    rewrite Hs in Hrun, Hstep. simpl in Hrun, Hstep.
    destruct Hstep as [_ Hn].
    unfold ProcessTrusteeVerification_process_message, deserialize in Hrun.
    destruct (decode_TrusteeVerification (content message)); [|done].
    rewrite Hn in Hrun. destruct (decide _); [done|].
    destruct (election_builder (context bb)) as [builder|] eqn:Hbuilder;
      [|done].
    fold keys in Hrun. fold joint_key in Hrun.
    destruct (build (set_public_key joint_key builder))
      as [[metadata ectx]|] eqn:Hbuild; [|done].
    injection Hrun as <- <- <- <-.
    unfold dict_values. rewrite length_fmap.
    split_and!; try done.
    by exists builder, metadata, ectx.
  - intros Hended. split.
    + intros message. unfold Wrapper_process_message.
      by destruct (step bb).
    + intros calls. by apply ceremony_outcome_run.
Qed.
End AfterKeyCeremony.

(** ** The side channel *)

Section SideChannel.
Context `{EG : Collaborators}.
Implicit Types (bb : BulletinBoard).

Lemma add_ballot_with_tally bb ballot t :
  tally (context bb) = Some t →
  step (add_ballot bb ballot).1 = step bb
  ∧ tally (context (add_ballot bb ballot).1) = Some (tally_all [ballot] t).
Proof.
  intros Ht. unfold add_ballot, deserialize, tally_all. simpl.
  destruct (decode_CiphertextBallot ballot); [|done].
  by rewrite Ht.
Qed.

Lemma add_ballots_with_tally ballots : ∀ bb t,
  tally (context bb) = Some t →
  step (run bb (AddBallot <$> ballots)) = step bb
  ∧ tally (context (run bb (AddBallot <$> ballots)))
    = Some (tally_all ballots t).
Proof.
  induction ballots as [|ballot ballots IH]; intros bb t Ht; [done|].
  destruct (add_ballot_with_tally bb ballot t Ht) as [Hstep Ht'].
  destruct (IH _ _ Ht') as [Hstep' Hrun].
  change (run bb (AddBallot <$> ballot :: ballots))
    with (run (add_ballot bb ballot).1 (AddBallot <$> ballots)).
  split; [congruence|]. rewrite Hrun. f_equal.
  unfold tally_all. simpl. by destruct (decode_CiphertextBallot ballot).
Qed.

(** C7, as the code has it. [add_ballot] is legal once [end_vote] has been
    processed: on every board a sequence of calls leads to whose step is
    [ProcessStartTally] or [ProcessTrusteeShare], adding a ballot that
    decodes raises nothing of the engine's own: the ballot, cast, is handed
    with the tally to [tally_ballot], the tally in the context is the tally
    as [tally_ballot] leaves it and nothing else in the board changes, and
    the call returns unless [tally_ballot] itself raises, and then that
    exception escapes. On a board whose step comes before, the tally does
    not exist yet: the call raises and changes nothing. *)
Theorem add_ballot_once_vote_closed bb ballot :
  reachable bb →
  (vote_closed (step bb) = true →
   ∀ b, decode_CiphertextBallot ballot = Some b →
     ∃ t, tally (context bb) = Some t
          ∧ let tallied := tally_ballot (from_ciphertext_ballot b CAST) t in
            add_ballot bb ballot
            = ({| context :=
                    {| public_keys := public_keys (context bb);
                       has_joint_key := has_joint_key (context bb);
                       shares := shares (context bb);
                       tally := Some tallied.1;
                       number_of_guardians := number_of_guardians (context bb);
                       election_builder := election_builder (context bb);
                       election_metadata := election_metadata (context bb);
                       election_context := election_context (context bb) |};
                  step := step bb |},
               match tallied.2 with
               | Some e => Raise e
               | None => Return ()
               end))
  ∧ (vote_closed (step bb) = false →
     ∃ e, add_ballot bb ballot = (bb, Raise e)).
Proof.
  intros Hbb.
  destruct (reachable_invariant bb Hbb) as (_ & _ & _ & Hstep).
  unfold add_ballot, deserialize. split.
  - intros Hclosed b ->.
    destruct (step bb); try discriminate Hclosed;
      destruct Hstep as [[t Ht] _]; exists t; by rewrite Ht.
  - intros Hopen.
    destruct (decode_CiphertextBallot ballot); [|by eexists].
    assert (tally (context bb) = None) as ->; [|by eexists].
    destruct (step bb); try discriminate Hopen; simpl in Hstep; tauto.
Qed.

(** C8, as the code has it. [get_tally_cast] can be called at any time
    after [end_vote] has been processed: on every board a sequence of
    calls leads to whose step is [ProcessStartTally] or
    [ProcessTrusteeShare] it returns the message of type [tally.cast]
    whose content is the serialized [cast] of the tally, and after any
    further ballots were added that is the tally with all of them tallied.
    On a board whose step comes before, the tally does not exist yet and
    the call raises. *)
Theorem get_tally_cast_once_vote_closed bb :
  reachable bb →
  (vote_closed (step bb) = true →
   ∃ t, tally (context bb) = Some t
        ∧ ∀ ballots,
            get_tally_cast (run bb (AddBallot <$> ballots))
            = Return {| out_message_type := "tally.cast";
                        out_body :=
                          content_of
                            (serialize_cast (cast (tally_all ballots t))) |})
  ∧ (vote_closed (step bb) = false →
     get_tally_cast bb = Raise AttributeError).
Proof.
  intros Hbb.
  destruct (reachable_invariant bb Hbb) as (_ & _ & _ & Hstep).
  split.
  - intros Hclosed.
    assert (is_Some (tally (context bb))) as [t Ht].
    { destruct (step bb); try discriminate Hclosed; by destruct Hstep. }
    exists t. split; [done|]. intros ballots.
    destruct (add_ballots_with_tally ballots bb t Ht) as [_ Hrun].
    unfold get_tally_cast. by rewrite Hrun.
  - intros Hopen. unfold get_tally_cast.
    assert (tally (context bb) = None) as ->; [|done].
    destruct (step bb); try discriminate Hopen; simpl in Hstep; tauto.
Qed.
End SideChannel.

(** ** The share phase *)

Section SharePhase.
Context `{EG : Collaborators}.
Implicit Types (bb : BulletinBoard) (m : Content).

Abbreviation Share := (TrusteeShare ElementModP CiphertextDecryptionSelection).
Abbreviation KeyAndShare := (ElementModP * CiphertextDecryptionSelection)%type.

(** *** The code computes it *)

Lemma prepare_unfold (recorded : list (string * Share)) :
  _prepare_shares_for_decryption recorded = fold_left add_bundle recorded [].
Proof.
  unfold _prepare_shares_for_decryption.
  generalize ([] : list (string * list (string * KeyAndShare))).
  induction recorded as [|[g share] recorded IH]; intros acc; [done|].
  simpl. rewrite IH. f_equal.
  unfold add_bundle, bundle_selections. simpl.
  generalize (contests share). clear. intros cs. revert acc.
  induction cs as [|[question_id question] cs IH]; intros acc; [done|].
  simpl. rewrite fold_left_app, IH. f_equal.
  generalize (selections question). clear. intros ss. revert acc.
  induction ss as [|[selection_id selection] ss IH]; intros acc; [done|].
  simpl. by rewrite IH.
Qed.

Lemma defaultdict_get_add_pair sid g key acc entry :
  defaultdict_get sid (add_pair g key acc entry)
  = if decide (sid = entry.1)
    then dict_set g (key, entry.2) (defaultdict_get sid acc)
    else defaultdict_get sid acc.
Proof.
  unfold add_pair, defaultdict_get. destruct (decide (sid = entry.1)) as [->|].
  - by rewrite dict_get_set_eq.
  - by rewrite dict_get_set_ne.
Qed.

Lemma defaultdict_get_add_pairs sid g key entries : ∀ acc,
  defaultdict_get sid (fold_left (add_pair g key) entries acc)
  = match dict_get sid (reverse entries) with
    | Some s => dict_set g (key, s) (defaultdict_get sid acc)
    | None => defaultdict_get sid acc
    end.
Proof.
  induction entries as [|[sid' s'] entries IH] using rev_ind; intros acc;
    [done|].
  rewrite fold_left_app, reverse_snoc. simpl.
  rewrite defaultdict_get_add_pair, IH. simpl.
  destruct (decide (sid = sid')); [|done].
  destruct (dict_get sid (reverse entries)); [|done].
  apply dict_set_set_eq.
Qed.

Lemma gather_pairs_keys sid (recorded : list (string * Share)) :
  dict_keys (gather_pairs sid recorded) ⊆ dict_keys recorded
  ∧ (NoDup (dict_keys recorded) → NoDup (dict_keys (gather_pairs sid recorded))).
Proof.
  unfold dict_keys, gather_pairs.
  induction recorded as [|[g share] recorded [IHsub IHnodup]]; simpl;
    [split; [done|constructor]|].
  destruct (partial_decryption sid share); simpl.
  - split; [set_solver|]. intros Hnodup.
    apply NoDup_cons in Hnodup as [Hnotin Hnodup].
    apply NoDup_cons. split; [set_solver|auto].
  - split; [set_solver|]. intros Hnodup.
    apply NoDup_cons in Hnodup as [Hnotin Hnodup]. auto.
Qed.

Lemma defaultdict_get_add_bundles sid (recorded : list (string * Share)) :
  ∀ acc,
  NoDup (dict_keys recorded) →
  (∀ g, g ∈ dict_keys recorded → g ∉ dict_keys (defaultdict_get sid acc)) →
  defaultdict_get sid (fold_left add_bundle recorded acc)
  = defaultdict_get sid acc ++ gather_pairs sid recorded.
Proof.
  induction recorded as [|[g share] recorded IH]; intros acc Hnodup Hfresh.
  { simpl. by rewrite app_nil_r. }
  unfold dict_keys in Hnodup. simpl in Hnodup.
  apply NoDup_cons in Hnodup as [Hg Hnodup].
  assert (Hgacc : g ∉ dict_keys (defaultdict_get sid acc)).
  { apply Hfresh. unfold dict_keys. simpl. set_solver. }
  simpl. rewrite IH; [|done|].
  - unfold add_bundle at 1. simpl. rewrite defaultdict_get_add_pairs.
    unfold gather_pairs at 2. simpl.
    fold (partial_decryption sid share).
    destruct (partial_decryption sid share); simpl; [|done].
    rewrite dict_set_notin_app by done. by rewrite <- app_assoc.
  - intros g' Hg'. unfold add_bundle. simpl.
    rewrite defaultdict_get_add_pairs.
    assert (g' ∉ dict_keys (defaultdict_get sid acc)).
    { apply Hfresh. unfold dict_keys in *. simpl. set_solver. }
    destruct (dict_get sid (reverse (bundle_selections share))); [|done].
    rewrite dict_set_notin_app by done.
    unfold dict_keys in *. rewrite fmap_app. simpl. set_solver.
Qed.

(** The dictionary [_prepare_shares_for_decryption] builds holds, for
    every selection, the gathered pairs. *)
Lemma prepare_gathers sid (recorded : list (string * Share)) :
  NoDup (dict_keys recorded) →
  defaultdict_get sid (_prepare_shares_for_decryption recorded)
  = gather_pairs sid recorded.
Proof.
  intros Hnodup. rewrite prepare_unfold.
  rewrite defaultdict_get_add_bundles; [done|done|].
  intros g _. unfold defaultdict_get, dict_keys. simpl. set_solver.
Qed.

Lemma for_each_mapM {A B} (f : A → Outcome B) (g : A → option B) l :
  (∀ x, f x = getattr (g x)) → for_each f l = getattr (mapM g l).
Proof.
  intros Hfg. induction l as [|x l IH]; [done|].
  simpl. rewrite Hfg, IH.
  destruct (g x); [|done]. simpl. by destruct (mapM g l).
Qed.

(** The [results] of the handler are the results the spec describes; the
    handler raises [AttributeError] exactly when they do not exist. *)
Lemma tally_results_combined (context : BulletinBoardContext) :
  NoDup (dict_keys (shares context)) →
  tally_results context = getattr (combined_results context).
Proof.
  intros Hnodup. unfold tally_results, combined_results.
  destruct (tally context) as [t|]; [|done]. simpl.
  rewrite (for_each_mapM _ (combined_contest context)).
  { by destruct (mapM _ _). }
  intros contest. unfold contest_result, combined_contest.
  rewrite (for_each_mapM _ (combined_selection context)).
  { by destruct (mapM _ _). }
  intros selection. unfold combined_selection.
  destruct (election_context context); [|done]. simpl.
  rewrite prepare_gathers by done.
  by destruct (decrypt_selection_with_decryption_shares _ _ _).
Qed.

(** One share message through the dispatcher. *)
Lemma share_message_step bb m share :
  step bb = ProcessTrusteeShare →
  message_type m = "tally.trustee_share" →
  decode_TrusteeShare (content m) = Some share →
  let context' :=
    set_shares (dict_set (guardian_id share) share (shares (context bb)))
      (context bb) in
  Wrapper_process_message bb (message_type m) m
  = ({| context := context'; step := ProcessTrusteeShare |},
     n ← getattr (number_of_guardians (context bb));
     if decide (length (shares context') < n) then Return None
     else results ← tally_results context'; Return (Some (end_tally results))).
Proof.
  intros Hstep Htype Hdec context'.
  unfold Wrapper_process_message. rewrite Hstep, Htype. simpl.
  unfold ProcessTrusteeShare_process_message, deserialize.
  rewrite Hdec. simpl. fold context'.
  destruct (number_of_guardians (context bb)); [|done]. simpl.
  destruct (decide _); [done|].
  by destruct (tally_results context').
Qed.


(** C10. [end_tally] is not emitted once only. When a share message has
    made the share step emit [end_tally], the step is still
    [ProcessTrusteeShare], and every further share message that decodes is
    accepted, recorded over whatever bundle its guardian had recorded, and
    answered with the results computed anew over the share bundles as they
    now are, in another [end_tally] message. *)
Theorem end_tally_emitted_again
    (bb : BulletinBoard) (m0 : Content) (out0 : Outbound) :
  step bb = ProcessTrusteeShare →
  message_type m0 = "tally.trustee_share" →
  (Wrapper_process_message bb (message_type m0) m0).2 = Return (Some out0) →
  let bb' := (Wrapper_process_message bb (message_type m0) m0).1 in
  step bb' = ProcessTrusteeShare
  ∧ ∀ (m : Content) (share : Share),
      message_type m = "tally.trustee_share" →
      decode_TrusteeShare (content m) = Some share →
      let context' :=
        set_shares
          (dict_set (guardian_id share) share (shares (context bb')))
          (context bb') in
      skip_message (step bb') (message_type m) = false
      ∧ dict_get (guardian_id share) (shares context') = Some share
      ∧ Wrapper_process_message bb' (message_type m) m
        = ({| context := context'; step := ProcessTrusteeShare |},
           results ← tally_results context';
           Return (Some (end_tally results))).
Proof.
  intros Hstep Htype0 Hout bb'.
  destruct (decode_TrusteeShare (content m0)) as [share0|] eqn:Hdec0.
  2:{ exfalso. revert Hout. unfold Wrapper_process_message.
      rewrite Hstep, Htype0. simpl.
      unfold ProcessTrusteeShare_process_message, deserialize.
      by rewrite Hdec0. }
  pose proof (share_message_step bb m0 share0 Hstep Htype0 Hdec0) as Hrun0.
  simpl in Hrun0. subst bb'. rewrite Hrun0 in Hout |- *. simpl in Hout |- *.
  split; [done|]. intros m share Htype Hdec.
  destruct (number_of_guardians (context bb)) as [n|] eqn:Hn; [|done].
  simpl in Hout. destruct (decide _) as [|Hquorum]; [done|]. clear Hout.
  split_and!.
  - by rewrite Htype.
  - apply dict_get_set_eq.
  - match goal with
    | |- Wrapper_process_message ?b _ _ = _ =>
        rewrite (share_message_step b m share eq_refl Htype Hdec)
    end. simpl.
    rewrite Hn. simpl. f_equal. rewrite decide_False; [done|].
    pose proof (dict_set_length_le (guardian_id share) share
      (dict_set (guardian_id share0) share0 (shares (context bb)))).
    lia.
Qed.

(** *** Submission order *)

Lemma submit_all_shares messages : ∀ bb,
  step bb = ProcessTrusteeShare →
  Forall share_message messages →
  submit_all bb messages
  = {| context :=
         set_shares (record_bundles (bundles messages) (shares (context bb)))
           (context bb);
       step := ProcessTrusteeShare |}.
Proof.
  induction messages as [|m messages IH]; intros bb Hstep Hall.
  - destruct bb as [[] s]. simpl in Hstep. by subst s.
  - apply Forall_cons in Hall as [[Htype [share Hdec]] Hall].
    rewrite submit_all_cons.
    rewrite (share_message_step bb m share Hstep Htype Hdec). simpl.
    rewrite IH by done. unfold bundles. simpl. by rewrite Hdec.
Qed.

Lemma outcomes_snoc messages m : ∀ bb,
  outcomes bb (messages ++ [m])
  = outcomes bb messages
    ++ [(Wrapper_process_message (submit_all bb messages)
           (message_type m) m).2].
Proof.
  induction messages as [|m' messages IH]; intros bb; [done|].
  simpl. by rewrite IH.
Qed.

Lemma bundles_snoc messages m share :
  decode_TrusteeShare (content m) = Some share →
  bundles (messages ++ [m]) = bundles messages ++ [share].
Proof.
  intros Hdec. unfold bundles. rewrite omap_app. simpl. by rewrite Hdec.
Qed.

Lemma bundles_length messages :
  Forall share_message messages → length (bundles messages) = length messages.
Proof.
  unfold bundles. induction 1 as [|m ms [_ [share Hdec]] _ IH]; [done|].
  simpl. rewrite Hdec. simpl. f_equal. exact IH.
Qed.

(** What the dispatcher answers to the last of a sequence of share
    messages. *)
Lemma last_share_outcome bb messages m :
  step bb = ProcessTrusteeShare →
  Forall share_message (messages ++ [m]) →
  let context' := context (submit_all bb (messages ++ [m])) in
  last (outcomes bb (messages ++ [m]))
  = Some (n ← getattr (number_of_guardians (context bb));
          if decide (length (shares context') < n) then Return None
          else results ← tally_results context';
               Return (Some (end_tally results))).
Proof.
  intros Hstep Hall context'. subst context'.
  rewrite outcomes_snoc, last_snoc. f_equal.
  rewrite (submit_all_shares _ bb Hstep Hall).
  apply Forall_app in Hall as [Hall Hm].
  apply Forall_singleton in Hm as [Htype [share Hdec]].
  rewrite (submit_all_shares _ bb Hstep Hall).
  match goal with
  | |- context [Wrapper_process_message ?b _ _] =>
      rewrite (share_message_step b m share eq_refl Htype Hdec)
  end. simpl.
  rewrite (bundles_snoc _ _ _ Hdec). unfold record_bundles.
  by rewrite fold_left_app.
Qed.

(** Bundles of distinct guardians, none of them recorded yet, are
    recorded one after the other. *)
Lemma record_bundles_fresh (bs : list Share) : ∀ recorded,
  NoDup (guardian_id <$> bs) →
  (∀ b, b ∈ bs → guardian_id b ∉ dict_keys recorded) →
  record_bundles bs recorded
  = recorded ++ ((fun b => (guardian_id b, b)) <$> bs).
Proof.
  induction bs as [|b bs IH]; intros recorded Hnodup Hfresh; simpl.
  { by rewrite app_nil_r. }
  apply NoDup_cons in Hnodup as [Hb Hnodup].
  rewrite dict_set_notin_app by (apply Hfresh; set_solver).
  rewrite IH; [by rewrite <- app_assoc|done|].
  intros b' Hb'. unfold dict_keys. rewrite fmap_app. simpl.
  apply not_elem_of_app. split; [apply Hfresh; set_solver|].
  apply not_elem_of_cons. split; [|apply not_elem_of_nil].
  intros Heq. apply Hb. rewrite <- Heq. by apply list_elem_of_fmap_2.
Qed.

Lemma recorded_from_empty bb messages :
  step bb = ProcessTrusteeShare →
  shares (context bb) = [] →
  Forall share_message messages →
  NoDup (guardian_id <$> bundles messages) →
  shares (context (submit_all bb messages))
  = (fun b => (guardian_id b, b)) <$> bundles messages.
Proof.
  intros Hstep Hempty Hall Hnodup.
  rewrite (submit_all_shares _ bb Hstep Hall). simpl.
  rewrite Hempty, record_bundles_fresh; [done|done|].
  intros b _. apply not_elem_of_nil.
Qed.

Lemma gather_pairs_length_all sid (recorded : list (string * Share)) :
  Forall (fun entry => is_Some (partial_decryption sid entry.2)) recorded →
  length (gather_pairs sid recorded) = length recorded.
Proof.
  unfold gather_pairs. induction 1 as [|entry recorded [s Hs] _ IH]; [done|].
  simpl. rewrite Hs. simpl. f_equal. exact IH.
Qed.

(** The results depend on the order of the recorded bundles only through
    what the delegated decryption makes of the order of the pairs. *)
Lemma combined_results_Permutation (context : BulletinBoardContext)
    (recorded1 recorded2 : list (string * Share)) :
  (∀ selection pairs1 pairs2 hash,
     pairs1 ≡ₚ pairs2 →
     decrypt_selection_with_decryption_shares selection pairs1 hash
     = decrypt_selection_with_decryption_shares selection pairs2 hash) →
  recorded1 ≡ₚ recorded2 →
  combined_results (set_shares recorded1 context)
  = combined_results (set_shares recorded2 context).
Proof.
  intros Hdecrypt Hperm. unfold combined_results. simpl.
  destruct (tally context) as [t|]; [|done]. simpl.
  f_equal. apply mapM_ext. intros contest. unfold combined_contest.
  f_equal. apply mapM_ext. intros selection. unfold combined_selection.
  simpl. destruct (election_context context); [|done]. simpl.
  f_equal. apply Hdecrypt. unfold gather_pairs. by rewrite Hperm.
Qed.

(** The answer to the last of a sequence of share messages from distinct
    guardians, none recorded before: nothing below quorum, and from quorum
    on the [end_tally] message with the results the spec describes, each
    selection decrypted from the pairs gathered for it. *)
Lemma last_share_answer bb (N : nat) (messages : list Content) :
  step bb = ProcessTrusteeShare →
  shares (context bb) = [] →
  number_of_guardians (context bb) = Some N →
  Forall share_message messages →
  NoDup (guardian_id <$> bundles messages) →
  messages ≠ [] →
  last (outcomes bb messages)
  = Some (if decide (length messages < N) then Return None
          else match combined_results (context (submit_all bb messages)) with
               | Some results => Return (Some (end_tally results))
               | None => Raise AttributeError
               end).
Proof.
  intros Hstep Hempty HN Hall Hnodup Hsome.
  pose proof (recorded_from_empty bb messages Hstep Hempty Hall Hnodup)
    as Hrecorded.
  assert (Hkeys : NoDup (dict_keys (shares (context (submit_all bb messages))))).
  { rewrite Hrecorded. unfold dict_keys. rewrite <- list_fmap_compose.
    exact Hnodup. }
  assert (Hlen : length (shares (context (submit_all bb messages)))
                 = length messages).
  { rewrite Hrecorded, length_fmap. by apply bundles_length. }
  destruct messages as [|m ms _] using rev_ind; [done|].
  rewrite last_share_outcome by done. f_equal.
  rewrite HN. simpl. rewrite Hlen.
  destruct (decide _); [done|].
  rewrite tally_results_combined by done.
  by destruct (combined_results _).
Qed.

(** C6, as the code has it. At share quorum the combination is given, for
    each selection, one pair of public key and partial decryption for each
    recorded guardian whose bundle holds a partial decryption of that
    selection, and none for the other guardians: [N] pairs, one per
    guardian, when [N] bundles are recorded and each of them holds the
    selection; the [end_tally] results are those the delegated decryption
    gives for these pairs. The same bundles of distinct guardians submitted
    in another order give, for each selection, the same pairs in another
    order, and the last answers of the two runs, the [end_tally] results,
    are identical provided the delegated decryption does not depend on the
    order of the pairs it is given. *)
Theorem share_combination_pairs_and_order
    (bb : BulletinBoard) (N : nat) (messages1 messages2 : list Content) :
  step bb = ProcessTrusteeShare →
  shares (context bb) = [] →
  number_of_guardians (context bb) = Some N →
  Forall share_message messages1 →
  NoDup (guardian_id <$> bundles messages1) →
  messages1 ≡ₚ messages2 →
  let recorded1 := shares (context (submit_all bb messages1)) in
  let recorded2 := shares (context (submit_all bb messages2)) in
  recorded1 = (fun b => (guardian_id b, b)) <$> bundles messages1
  ∧ (∀ sid,
       let pairs :=
         defaultdict_get sid (_prepare_shares_for_decryption recorded1) in
       pairs = gather_pairs sid recorded1
       ∧ NoDup (dict_keys pairs)
       ∧ dict_keys pairs ⊆ dict_keys recorded1
       ∧ (length messages1 = N →
          Forall (fun b => is_Some (partial_decryption sid b))
            (bundles messages1) →
          length pairs = N))
  ∧ (∀ sid,
       defaultdict_get sid (_prepare_shares_for_decryption recorded2)
       ≡ₚ defaultdict_get sid (_prepare_shares_for_decryption recorded1))
  ∧ (messages1 ≠ [] →
     ∀ messages, messages = messages1 ∨ messages = messages2 →
       last (outcomes bb messages)
       = Some (if decide (length messages < N) then Return None
               else match combined_results
                            (context (submit_all bb messages)) with
                    | Some results => Return (Some (end_tally results))
                    | None => Raise AttributeError
                    end))
  ∧ ((∀ selection pairs1 pairs2 hash,
        pairs1 ≡ₚ pairs2 →
        decrypt_selection_with_decryption_shares selection pairs1 hash
        = decrypt_selection_with_decryption_shares selection pairs2 hash) →
     last (outcomes bb messages1) = last (outcomes bb messages2)).
Proof.
  intros Hstep Hempty HN Hall1 Hnodup1 Hperm recorded1 recorded2.
  assert (Hall2 : Forall share_message messages2) by by rewrite <- Hperm.
  assert (Hbundles : bundles messages1 ≡ₚ bundles messages2)
    by (unfold bundles; by rewrite Hperm).
  assert (Hnodup2 : NoDup (guardian_id <$> bundles messages2))
    by by rewrite <- Hbundles.
  assert (Hrec1 : recorded1 = (fun b => (guardian_id b, b)) <$> bundles messages1)
    by by apply recorded_from_empty.
  assert (Hrec2 : recorded2 = (fun b => (guardian_id b, b)) <$> bundles messages2)
    by by apply recorded_from_empty.
  assert (Hrecorded : recorded1 ≡ₚ recorded2)
    by (rewrite Hrec1, Hrec2; by rewrite Hbundles).
  assert (Hkeys1 : NoDup (dict_keys recorded1)).
  { rewrite Hrec1. unfold dict_keys. rewrite <- list_fmap_compose.
    exact Hnodup1. }
  assert (Hkeys2 : NoDup (dict_keys recorded2)).
  { rewrite Hrec2. unfold dict_keys. rewrite <- list_fmap_compose.
    exact Hnodup2. }
  split_and!.
  - exact Hrec1.
  - intros sid pairs. subst pairs. rewrite prepare_gathers by done.
    destruct (gather_pairs_keys sid recorded1) as [Hsub Hnd].
    split_and!; [done|auto|done|].
    intros Hlen Hhold. rewrite gather_pairs_length_all.
    + rewrite Hrec1, length_fmap. rewrite <- Hlen.
      by apply bundles_length.
    + rewrite Hrec1. by apply Forall_fmap.
  - intros sid. rewrite !prepare_gathers by done.
    unfold gather_pairs. by rewrite Hrecorded.
  - intros Hsome messages [->| ->].
    + by apply last_share_answer.
    + apply last_share_answer; try done.
      intros ->. apply Permutation_nil_r in Hperm. done.
  - intros Hdecrypt.
    assert (Hsub1 : submit_all bb messages1
                    = {| context := set_shares recorded1 (context bb);
                         step := ProcessTrusteeShare |}).
    { subst recorded1. by rewrite (submit_all_shares _ bb Hstep Hall1). }
    assert (Hsub2 : submit_all bb messages2
                    = {| context := set_shares recorded2 (context bb);
                         step := ProcessTrusteeShare |}).
    { subst recorded2. by rewrite (submit_all_shares _ bb Hstep Hall2). }
    clearbody recorded1 recorded2.
    destruct messages1 as [|m1 ms1 _] using rev_ind.
    { apply Permutation_nil_l in Hperm. by subst messages2. }
    destruct messages2 as [|m2 ms2 _] using rev_ind.
    { symmetry in Hperm. apply Permutation_nil_l in Hperm.
      by destruct ms1. }
    rewrite !last_share_outcome by done. f_equal.
    rewrite Hsub1, Hsub2. simpl.
    destruct (number_of_guardians (context bb)) as [n|]; [|done].
    simpl. rewrite (Permutation_length Hrecorded).
    destruct (decide _); [done|].
    rewrite !tally_results_combined by done.
    by rewrite (combined_results_Permutation _ _ _ Hdecrypt Hrecorded).
Qed.
End SharePhase.


(** * More of the engine *)

(** ** The order of the steps *)

Section StepOrder.
Context `{EG : Collaborators}.
Implicit Types (bb : BulletinBoard) (c : Call).

Lemma step_rank_call bb c :
  step_rank (step bb) ≤ step_rank (step (call bb c)) ≤ S (step_rank (step bb)).
Proof.
  destruct c as [message_type message|ballot|]; simpl; [| |lia].
  - unfold Wrapper_process_message.
    destruct (skip_message (step bb) message_type); [simpl; lia|].
    destruct bb as [context s]. simpl.
    destruct s; simpl.
    + unfold ProcessCreateElection_process_message, build_election.
      destruct (election_skeleton (content message)) as [[n b]|]; simpl; lia.
    + lia.
    + unfold ProcessTrusteeElectionKeys_process_message, deserialize.
      destruct (decode_PublicKeySet (content message)); simpl; [|lia].
      destruct (number_of_guardians context); simpl; [|lia].
      destruct (decide _); simpl; lia.
    + unfold ProcessTrusteeElectionPartialKeys_process_message, deserialize.
      destruct (decode_TrusteePartialKeys (content message)); simpl; [|lia].
      destruct (number_of_guardians context); simpl; [|lia].
      destruct (decide _); simpl; lia.
    + unfold ProcessTrusteeVerification_process_message, deserialize.
      destruct (decode_TrusteeVerification (content message)); simpl; [|lia].
      destruct (number_of_guardians context); simpl; [|lia].
      destruct (decide _); simpl; [lia|].
      destruct (election_builder context); simpl; [|lia].
      destruct (build _) as [[metadata ectx]|]; simpl; lia.
    + lia.
    + unfold ProcessCastVote_process_message, deserialize.
      destruct (decide _).
      * destruct (election_metadata context), (election_context context);
          simpl; lia.
      * simpl. destruct (decode_CiphertextBallot _); simpl; [|lia].
        destruct (election_metadata context); simpl; [|lia].
        destruct (election_context context); simpl; [|lia].
        destruct (ballot_is_valid_for_election _ _ _); simpl; lia.
    + lia.
    + unfold ProcessTrusteeShare_process_message, deserialize.
      destruct (decode_TrusteeShare _); simpl; [|lia].
      destruct (number_of_guardians context); simpl; [|lia].
      destruct (decide _); simpl; [lia|].
      destruct (tally_results _); simpl; lia.
  - unfold add_ballot, deserialize.
    destruct (decode_CiphertextBallot ballot); simpl; [|lia].
    destruct (tally (context bb)); simpl; lia.
Qed.

(** X1. The steps come in the order of the classes and no call leads back:
    over any sequence of calls the active step never moves to an earlier
    one, moves on by at most one step per call, and
    [ProcessTrusteeShare], the last one, is never left. *)
Theorem steps_never_regress bb (calls : list Call) :
  step_rank (step bb) ≤ step_rank (step (run bb calls))
  ∧ step_rank (step (run bb calls)) ≤ step_rank (step bb) + length calls
  ∧ (step bb = ProcessTrusteeShare →
     step (run bb calls) = ProcessTrusteeShare).
Proof.
  assert (Hrank : step_rank (step bb) ≤ step_rank (step (run bb calls))
                  ∧ step_rank (step (run bb calls))
                    ≤ step_rank (step bb) + length calls).
  { revert bb. induction calls as [|c calls IH]; intros bb; [simpl; lia|].
    change (run bb (c :: calls)) with (run (call bb c) calls).
    specialize (IH (call bb c)). pose proof (step_rank_call bb c).
    simpl. lia. }
  split_and!; [apply Hrank|apply Hrank|].
  intros Hlast. rewrite Hlast in Hrank. simpl in Hrank.
  destruct (step (run bb calls)); simpl in Hrank; try lia. done.
Qed.

(** X2. No two steps accept the same message type: a message type that
    one step does not skip is skipped by every other step. *)
Theorem message_type_of_one_step (s s' : ElectionStep) (message_type : string) :
  skip_message s message_type = false →
  skip_message s' message_type = false →
  step_rank s = step_rank s'.
Proof.
  intros Hs Hs'.
  destruct s; simpl in Hs;
    (try (apply bool_decide_eq_false in Hs; apply dec_stable in Hs;
          injection Hs as <-));
    destruct s'; simpl in Hs' |- *; try done;
    apply andb_false_iff in Hs as [Hs|Hs];
    apply bool_decide_eq_false in Hs; apply dec_stable in Hs; subst;
    done.
Qed.

(** X3. A handler deserializes before it changes anything: when the payload
    of an accepted message does not decode into what the handler of the
    active step deserializes, the dispatcher raises the decoding error and
    the board, step and context, is as it was. *)
Theorem undecodable_payload_changes_nothing bb message_type message :
  skip_message (step bb) message_type = false →
  ¬ decodes (step bb) message_type (content message) →
  Wrapper_process_message bb message_type message
  = (bb, Raise DeserializeError).
Proof.
  intros Hskip Hdec. unfold Wrapper_process_message. rewrite Hskip.
  destruct bb as [context s]. simpl in *.
  destruct s; simpl in Hdec; try (by destruct Hdec); simpl.
  - unfold ProcessTrusteeElectionKeys_process_message, deserialize.
    destruct (decode_PublicKeySet (content message)); [|done].
    by destruct Hdec.
  - unfold ProcessTrusteeElectionPartialKeys_process_message, deserialize.
    destruct (decode_TrusteePartialKeys (content message)); [|done].
    by destruct Hdec.
  - unfold ProcessTrusteeVerification_process_message, deserialize.
    destruct (decode_TrusteeVerification (content message)); [|done].
    by destruct Hdec.
  - unfold ProcessCastVote_process_message, deserialize.
    destruct (decide _); [by destruct Hdec; left|].
    destruct (decode_CiphertextBallot (content message)); [|done].
    destruct Hdec. by right.
  - unfold ProcessTrusteeShare_process_message, deserialize.
    destruct (decode_TrusteeShare (content message)); [|done].
    by destruct Hdec.
Qed.
End StepOrder.

(** ** The key ceremony and the vote *)

Section CeremonyAndVote.
Context `{EG : Collaborators}.
Implicit Types (bb : BulletinBoard) (c : Call) (m : Content).

(** X4. No more guardian keys are recorded than there are guardians: on
    every board a sequence of calls leads to, in an election with at least
    one guardian, [public_keys] holds at most [number_of_guardians] keys,
    and exactly that many once the guardian-key step is left. *)
Theorem recorded_keys_bounded bb (N : nat) :
  reachable bb →
  number_of_guardians (context bb) = Some N →
  1 ≤ N →
  length (public_keys (context bb)) ≤ N
  ∧ (2 < step_rank (step bb) → length (public_keys (context bb)) = N).
Proof.
  intros Hbb HN HN1.
  destruct (reachable_invariant bb Hbb) as (_ & _ & _ & Hinv).
  destruct (step bb); simpl in Hinv |- *.
  - destruct Hinv as [_ ->]. simpl. lia.
  - destruct Hinv as (_ & -> & _). simpl. lia.
  - destruct Hinv as (_ & n & Hn & Hlt). rewrite HN in Hn.
    injection Hn as <-. specialize (Hlt HN1). lia.
  - destruct Hinv as [_ Hn]. rewrite HN in Hn. injection Hn as ->. lia.
  - destruct Hinv as [_ Hn]. rewrite HN in Hn. injection Hn as ->. lia.
  - destruct Hinv as [_ Hn]. rewrite HN in Hn. injection Hn as ->. lia.
  - destruct Hinv as [_ Hn]. rewrite HN in Hn. injection Hn as ->. lia.
  - destruct Hinv as [_ Hn]. rewrite HN in Hn. injection Hn as ->. lia.
  - destruct Hinv as [_ Hn]. rewrite HN in Hn. injection Hn as ->. lia.
Qed.

Lemma dict_set_nonempty {V} k (v : V) d : 0 < length (dict_set k v d).
Proof.
  destruct d as [|[k' v'] d]; simpl; [lia|].
  destruct (decide (k = k')); simpl; lia.
Qed.

(** X5. With no guardians the guardian-key step is never left: the handler
    compares the number of recorded keys with [number_of_guardians] for
    equality after recording one, so with [number_of_guardians = 0] no
    sequence of messages, whatever they are, changes the step. *)
Theorem no_guardians_no_quorum (messages : list Content) : ∀ bb,
  step bb = ProcessTrusteeElectionKeys →
  number_of_guardians (context bb) = Some 0 →
  step (submit_all bb messages) = ProcessTrusteeElectionKeys
  ∧ count_transitions bb messages = 0.
Proof.
  induction messages as [|m messages IH]; intros bb Hstep HN; [done|].
  rewrite submit_all_cons. cbn [count_transitions].
  assert (Hm : step (Wrapper_process_message bb (message_type m) m).1
               = ProcessTrusteeElectionKeys
               ∧ number_of_guardians
                   (context (Wrapper_process_message bb (message_type m) m).1)
                 = Some 0
               ∧ transitions bb (message_type m) m = false).
  { unfold Wrapper_process_message, transitions. rewrite Hstep.
    destruct (skip_message _ _); [done|]. simpl.
    unfold ProcessTrusteeElectionKeys_process_message, deserialize.
    destruct (decode_PublicKeySet (content m)) as [pks|]; [|done].
    simpl. rewrite HN. simpl.
    pose proof (dict_set_nonempty (owner_id pks) (election_public_key pks)
                  (public_keys (context bb))).
    destruct (decide _); [lia|done]. }
  destruct Hm as (Hstep' & HN' & ->).
  by apply IH.
Qed.

(** One partial-keys message through the dispatcher. *)
Lemma partial_keys_message_step bb m received N pk :
  step bb = ProcessTrusteeElectionPartialKeys received →
  number_of_guardians (context bb) = Some N →
  message_type m = "key_ceremony.trustee_partial_election_keys" →
  decode_TrusteePartialKeys (content m) = Some pk →
  let received' := received ∪ {[ partial_keys_guardian_id pk ]} in
  Wrapper_process_message bb (message_type m) m
  = ({| context := context bb;
        step := if decide (size received' = N)
                then ProcessTrusteeVerification ∅
                else ProcessTrusteeElectionPartialKeys received' |},
     Return None)
  ∧ transitions bb (message_type m) m = bool_decide (size received' = N).
Proof.
  intros Hstep HN Htype Hdec received'.
  unfold Wrapper_process_message, transitions.
  rewrite Hstep, Htype. simpl.
  unfold ProcessTrusteeElectionPartialKeys_process_message, deserialize.
  rewrite Hdec. simpl. rewrite HN. simpl. fold received'.
  destruct (decide (size received' = N)); simpl.
  - by rewrite bool_decide_eq_true_2.
  - by rewrite bool_decide_eq_false_2.
Qed.

(** The partial-keys phase from any state below quorum. *)
Lemma partial_keys_phase_run (N : nat) (messages : list Content) :
  ∀ bb (received : gset string),
  step bb = ProcessTrusteeElectionPartialKeys received →
  number_of_guardians (context bb) = Some N →
  size received < N →
  Forall partial_keys_message messages →
  let seen := received ∪ list_to_set (partial_keys_senders messages) in
  context (submit_all bb messages) = context bb
  ∧ (size seen < N →
     step (submit_all bb messages) = ProcessTrusteeElectionPartialKeys seen
     ∧ count_transitions bb messages = 0)
  ∧ (N ≤ size seen →
     step (submit_all bb messages) = ProcessTrusteeVerification ∅
     ∧ count_transitions bb messages = 1).
Proof.
  induction messages as [|m messages IH];
    intros bb received Hstep HN Hlt Hall seen.
  - subst seen. simpl. rewrite union_empty_r_L.
    split_and!; [done|done|lia].
  - apply Forall_cons in Hall as [[Htype [pk Hdec]] Hall].
    destruct (partial_keys_message_step bb m received N pk Hstep HN Htype Hdec)
      as [Hrun Htr].
    rewrite submit_all_cons. cbn [count_transitions].
    rewrite Htr, Hrun. clear Htr Hrun. cbn [fst].
    set (received' := received ∪ {[ partial_keys_guardian_id pk ]}).
    assert (Hseen : seen = received'
                           ∪ list_to_set (partial_keys_senders messages)).
    { subst seen received'. unfold partial_keys_senders. simpl.
      rewrite Hdec. simpl. set_solver. }
    destruct (decide (size received' = N)) as [Heq|Hne].
    + rewrite bool_decide_eq_true_2 by done.
      destruct (submit_all_skipped messages
        {| context := context bb; step := ProcessTrusteeVerification ∅ |})
        as [-> ->].
      { eapply Forall_impl; [exact Hall|]. intros m' [-> _]. reflexivity. }
      split_and!; [done| |done]. intros Hsize. exfalso.
      assert (size received' ≤ size seen).
      { apply subseteq_size. rewrite Hseen. set_solver. }
      lia.
    + rewrite bool_decide_eq_false_2 by done.
      assert (Hlt' : size received' < N).
      { subst received'.
        pose proof (size_union_alt received {[ partial_keys_guardian_id pk ]}).
        assert (size ({[ partial_keys_guardian_id pk ]} ∖ received) ≤ 1).
        { etrans; [apply subseteq_size, subseteq_difference_l; reflexivity|].
          by rewrite size_singleton. }
        lia. }
      specialize (IH {| context := context bb;
                        step := ProcessTrusteeElectionPartialKeys received' |}
                    received' eq_refl HN Hlt' Hall).
      cbn [context] in IH. rewrite <- Hseen in IH. simpl. exact IH.
Qed.

(** X6. While [ProcessTrusteeElectionPartialKeys] is the active step, below
    quorum: partial-keys messages, in whatever order and with whatever
    repetitions, make the dispatcher change step exactly once, to
    [ProcessTrusteeVerification] with nothing received yet, when the
    distinct guardians they come from, with those already received, reach
    [number_of_guardians]; while they stay fewer the step only collects
    them; either way the context is never touched. *)
Theorem partial_keys_quorum (N : nat) (messages : list Content) :
  ∀ bb (received : gset string),
  step bb = ProcessTrusteeElectionPartialKeys received →
  number_of_guardians (context bb) = Some N →
  size received < N →
  Forall partial_keys_message messages →
  let seen := received ∪ list_to_set (partial_keys_senders messages) in
  context (submit_all bb messages) = context bb
  ∧ (size seen < N →
     step (submit_all bb messages) = ProcessTrusteeElectionPartialKeys seen
     ∧ count_transitions bb messages = 0)
  ∧ (N ≤ size seen →
     step (submit_all bb messages) = ProcessTrusteeVerification ∅
     ∧ count_transitions bb messages = 1).
Proof. apply partial_keys_phase_run. Qed.

(** The election parameters are in the context of every board past the key
    ceremony. *)
Lemma parameters_built_call bb c :
  (key_ceremony_ended (step bb) = true → parameters_built (context bb)) →
  key_ceremony_ended (step (call bb c)) = true →
  parameters_built (context (call bb c)).
Proof.
  intros Hbuilt Hended'.
  destruct (key_ceremony_ended (step bb)) eqn:Hended.
  { destruct (ceremony_outcome_call bb c Hended) as [_ Hsame].
    unfold ceremony_outcome in Hsame. specialize (Hbuilt eq_refl).
    unfold parameters_built in *.
    injection Hsame as _ _ _ Hmetadata Hectx. by rewrite Hmetadata, Hectx. }
  clear Hbuilt. revert Hended'.
  destruct c as [message_type message|ballot|]; simpl.
  - unfold Wrapper_process_message.
    destruct (skip_message (step bb) message_type); [simpl; congruence|].
    destruct bb as [context s]. simpl in *.
    destruct s; try discriminate Hended; simpl.
    + unfold ProcessCreateElection_process_message, build_election.
      by destruct (election_skeleton (content message)) as [[n b]|].
    + done.
    + unfold ProcessTrusteeElectionKeys_process_message, deserialize.
      destruct (decode_PublicKeySet (content message)); simpl; [|done].
      destruct (number_of_guardians context); simpl; [|done].
      by destruct (decide _).
    + unfold ProcessTrusteeElectionPartialKeys_process_message, deserialize.
      destruct (decode_TrusteePartialKeys (content message)); simpl; [|done].
      destruct (number_of_guardians context); simpl; [|done].
      by destruct (decide _).
    + unfold ProcessTrusteeVerification_process_message, deserialize.
      destruct (decode_TrusteeVerification (content message)); simpl; [|done].
      destruct (number_of_guardians context); simpl; [|done].
      destruct (decide _); simpl; [done|].
      destruct (election_builder context); simpl; [|done].
      destruct (build _) as [[metadata ectx]|]; simpl; [|done].
      intros _. split; by eexists.
  - unfold add_ballot, deserialize.
    destruct (decode_CiphertextBallot ballot); simpl; [|congruence].
    destruct (tally (context bb)); simpl; congruence.
  - congruence.
Qed.

Lemma parameters_built_reachable bb :
  reachable bb →
  key_ceremony_ended (step bb) = true → parameters_built (context bb).
Proof.
  intros [calls ->].
  induction calls as [|c calls IH] using rev_ind; [done|].
  rewrite run_snoc. by apply parameters_built_call.
Qed.

(** [end_vote] on a board a sequence of calls leads to. *)
Lemma end_vote_on_reachable bb :
  reachable bb →
  step bb = ProcessCastVote →
  ∃ metadata ectx,
    election_metadata (context bb) = Some metadata
    ∧ election_context (context bb) = Some ectx
    ∧ ∀ message,
        Wrapper_process_message bb "end_vote" message
        = ({| context :=
                set_tally
                  (new_CiphertextTally "election-results" metadata ectx)
                  (context bb);
              step := ProcessStartTally |}, Return None).
Proof.
  intros Hbb Hstep.
  destruct (parameters_built_reachable bb Hbb) as [[metadata Hm] [ectx He]].
  { by rewrite Hstep. }
  exists metadata, ectx. split_and!; [done|done|]. intros message.
  unfold Wrapper_process_message. rewrite Hstep. simpl.
  unfold ProcessCastVote_process_message. simpl. by rewrite Hm, He.
Qed.

(** X7. Votes cast through messages are validated and nothing else: on
    every board a sequence of calls leads to with [ProcessCastVote] active,
    any sequence of [vote.cast] messages, valid or not, leaves the board as
    it is; and [end_vote], whatever its content, never raises: it leaves in
    the context a new tally made from the election parameters alone, with
    everything else in the context as it was, returns no message and moves
    to [ProcessStartTally]. *)
Theorem cast_votes_leave_no_trace bb :
  reachable bb →
  step bb = ProcessCastVote →
  (∀ messages,
     Forall (fun m => message_type m = "vote.cast") messages →
     submit_all bb messages = bb)
  ∧ ∃ metadata ectx,
      election_metadata (context bb) = Some metadata
      ∧ election_context (context bb) = Some ectx
      ∧ ∀ message,
          Wrapper_process_message bb "end_vote" message
          = ({| context :=
                  {| public_keys := public_keys (context bb);
                     has_joint_key := has_joint_key (context bb);
                     shares := shares (context bb);
                     tally :=
                       Some (new_CiphertextTally "election-results"
                               metadata ectx);
                     number_of_guardians := number_of_guardians (context bb);
                     election_builder := election_builder (context bb);
                     election_metadata := Some metadata;
                     election_context := Some ectx |};
                step := ProcessStartTally |}, Return None).
Proof.
  intros Hbb Hstep. split.
  - intros messages Hall. induction Hall as [|m messages Htype _ IH]; [done|].
    rewrite submit_all_cons.
    assert ((Wrapper_process_message bb (message_type m) m).1 = bb) as ->;
      [|done].
    unfold Wrapper_process_message. rewrite Hstep, Htype. simpl.
    unfold ProcessCastVote_process_message, deserialize. simpl.
    destruct bb as [context s]. simpl in *. subst s.
    destruct (decode_CiphertextBallot (content m)); simpl; [|done].
    destruct (election_metadata context); simpl; [|done].
    destruct (election_context context); simpl; [|done].
    by destruct (ballot_is_valid_for_election _ _ _).
  - destruct (end_vote_on_reachable bb Hbb Hstep)
      as (metadata & ectx & Hm & He & Hend).
    exists metadata, ectx. split_and!; [done|done|]. intros message.
    rewrite Hend. unfold set_tally. by rewrite Hm, He.
Qed.
End CeremonyAndVote.

(** ** What a run emits *)

Section Emitted.
Context `{EG : Collaborators}.
Implicit Types (bb : BulletinBoard) (c : Call).

(** An outbound message comes from the verification step, which then gives
    way to [ProcessStartVote], or from the share step. *)
Lemma outbound_origin bb message_type message out :
  (Wrapper_process_message bb message_type message).2 = Return (Some out) →
  (out_message_type out = "end_key_ceremony"
   ∧ key_ceremony_ended (step bb) = false
   ∧ step (Wrapper_process_message bb message_type message).1
     = ProcessStartVote)
  ∨ (out_message_type out = "end_tally" ∧ step bb = ProcessTrusteeShare).
Proof.
  unfold Wrapper_process_message.
  destruct (skip_message (step bb) message_type); [done|].
  destruct bb as [context s]. simpl.
  destruct s; simpl.
  - unfold ProcessCreateElection_process_message, build_election.
    by destruct (election_skeleton (content message)) as [[n b]|].
  - done.
  - unfold ProcessTrusteeElectionKeys_process_message, deserialize.
    destruct (decode_PublicKeySet (content message)); simpl; [|done].
    destruct (number_of_guardians context); simpl; [|done].
    by destruct (decide _).
  - unfold ProcessTrusteeElectionPartialKeys_process_message, deserialize.
    destruct (decode_TrusteePartialKeys (content message)); simpl; [|done].
    destruct (number_of_guardians context); simpl; [|done].
    by destruct (decide _).
  - unfold ProcessTrusteeVerification_process_message, deserialize.
    destruct (decode_TrusteeVerification (content message)); simpl; [|done].
    destruct (number_of_guardians context); simpl; [|done].
    destruct (decide _); simpl; [done|].
    destruct (election_builder context); simpl; [|done].
    destruct (build _) as [[metadata ectx]|]; simpl; [|done].
    intros [= <-]. by left.
  - done.
  - unfold ProcessCastVote_process_message, deserialize.
    destruct (decide _).
    + by destruct (election_metadata context), (election_context context).
    + simpl. destruct (decode_CiphertextBallot _); simpl; [|done].
      destruct (election_metadata context); simpl; [|done].
      destruct (election_context context); simpl; [|done].
      by destruct (ballot_is_valid_for_election _ _ _).
  - done.
  - unfold ProcessTrusteeShare_process_message, deserialize.
    destruct (decode_TrusteeShare _); simpl; [|done].
    destruct (number_of_guardians context); simpl; [|done].
    destruct (decide _); simpl; [done|].
    destruct (tally_results _); simpl; [|done].
    intros [= <-]. by right.
Qed.

Lemma emitted_after_ceremony calls : ∀ bb,
  key_ceremony_ended (step bb) = true →
  Forall (fun out => out_message_type out = "end_tally") (emitted bb calls).
Proof.
  induction calls as [|c calls IH]; intros bb Hended; [constructor|].
  destruct (ceremony_outcome_call bb c Hended) as [Hended' _].
  cbn [emitted]. apply Forall_app. split; [|by apply IH].
  destruct c as [message_type message| |]; try constructor.
  destruct (Wrapper_process_message bb message_type message).2
    as [[out|]|] eqn:Hout; try constructor; [|constructor].
  destruct (outbound_origin _ _ _ _ Hout) as [(_ & Hnot & _)|[Htype _]];
    [congruence|done].
Qed.

(** X8. Over any sequence of calls on any board the dispatcher emits at
    most one [end_key_ceremony] message, then only [end_tally] messages,
    and nothing else. *)
Theorem one_end_key_ceremony_then_tallies (calls : list Call) : ∀ bb,
  ∃ ceremony tallies,
    emitted bb calls = ceremony ++ tallies
    ∧ length ceremony ≤ 1
    ∧ Forall (fun out => out_message_type out = "end_key_ceremony") ceremony
    ∧ Forall (fun out => out_message_type out = "end_tally") tallies.
Proof.
  induction calls as [|c calls IH]; intros bb.
  { exists [], []. split_and!; [done|simpl; lia|constructor|constructor]. }
  destruct (key_ceremony_ended (step bb)) eqn:Hended.
  { exists [], (emitted bb (c :: calls)).
    split_and!; [done|simpl; lia|constructor|].
    by apply emitted_after_ceremony. }
  cbn [emitted].
  destruct c as [message_type message|ballot|]; try apply IH.
  destruct (Wrapper_process_message bb message_type message).2
    as [[out|]|] eqn:Hout; try apply IH.
  destruct (outbound_origin _ _ _ _ Hout) as [(Htype & _ & Hnext)|[_ Hshare]].
  - exists [out], (emitted (call bb (Submit message_type message)) calls).
    split_and!; [done|simpl; lia|by repeat constructor|].
    apply emitted_after_ceremony. simpl. by rewrite Hnext.
  - by rewrite Hshare in Hended.
Qed.
End Emitted.

(** ** The pairs of a selection *)

Section Pairs.
Context `{EG : Collaborators}.

Abbreviation Share := (TrusteeShare ElementModP CiphertextDecryptionSelection).
Abbreviation KeyAndShare := (ElementModP * CiphertextDecryptionSelection)%type.

Lemma dict_get_gather_pairs sid (recorded : list (string * Share)) g share :
  NoDup (dict_keys recorded) →
  (g, share) ∈ recorded →
  dict_get g (gather_pairs sid recorded)
  = (fun s => (public_key share, s)) <$> partial_decryption sid share.
Proof.
  unfold dict_keys, gather_pairs.
  induction recorded as [|[g' share'] recorded IH]; simpl.
  { intros _ Hin. by apply elem_of_nil in Hin. }
  intros Hnodup Hin. apply NoDup_cons in Hnodup as [Hg' Hnodup].
  apply elem_of_cons in Hin as [[= -> ->]|Hin].
  - destruct (partial_decryption sid share'); simpl.
    + by rewrite decide_True.
    + apply dict_get_None. unfold dict_keys. intros Hin.
      apply Hg'. apply list_elem_of_fmap in Hin as [[g0 p] [-> Hin]].
      apply list_elem_of_omap in Hin as [[g1 share1] [Hin Hsome]].
      simpl in Hsome. destruct (partial_decryption sid share1); [|done].
      injection Hsome as <- _. simpl.
      apply list_elem_of_fmap. by exists (g1, share1).
  - assert (g ≠ g').
    { intros ->. apply Hg'. apply list_elem_of_fmap. by exists (g', share). }
    destruct (partial_decryption sid share'); simpl.
    + rewrite decide_False by done. by apply IH.
    + by apply IH.
Qed.

Lemma dict_get_reverse_last {V} sid (s : V) (l1 l2 : list (string * V)) :
  sid ∉ l2.*1 →
  dict_get sid (reverse (l1 ++ (sid, s) :: l2)) = Some s.
Proof.
  intros Hnotin. rewrite reverse_app, reverse_cons.
  induction l2 as [|[sid' s'] l2 IH] using rev_ind.
  { simpl. by rewrite decide_True. }
  rewrite fmap_app in Hnotin. apply not_elem_of_app in Hnotin as [Hl2 Hsid'].
  rewrite reverse_snoc. simpl.
  rewrite decide_False by set_solver. by apply IH.
Qed.

(** X9. What the prepared dictionary holds for a selection and a guardian:
    when the recorded bundle of guardian [g] holds the selection id, once
    or several times, in one contest or across contests, the pair filed
    under the selection and [g] is the bundle's public key with the last of
    these partial decryptions; when it does not hold it, nothing is filed
    under [g]; and a selection no recorded bundle holds reads as the empty
    dictionary. *)
Theorem prepared_pair_of_guardian
    (recorded : list (string * Share)) (sid g : string) (share : Share) :
  NoDup (dict_keys recorded) →
  (g, share) ∈ recorded →
  let pairs :=
    defaultdict_get sid (_prepare_shares_for_decryption recorded) in
  (∀ before s after,
     bundle_selections share = before ++ (sid, s) :: after →
     sid ∉ after.*1 →
     dict_get g pairs = Some (public_key share, s))
  ∧ (sid ∉ (bundle_selections share).*1 → dict_get g pairs = None)
  ∧ ((∀ entry, entry ∈ recorded → sid ∉ (bundle_selections entry.2).*1) →
     pairs = []).
Proof.
  intros Hnodup Hin pairs. subst pairs. rewrite prepare_gathers by done.
  assert (Hnone : ∀ sh : Share,
            sid ∉ (bundle_selections sh).*1 → partial_decryption sid sh = None).
  { intros sh Hnotin. unfold partial_decryption. apply dict_get_None.
    unfold dict_keys. rewrite fmap_reverse. by rewrite elem_of_reverse. }
  split_and!.
  - intros before s after Hsel Hlast.
    rewrite (dict_get_gather_pairs sid recorded g share) by done.
    unfold partial_decryption. rewrite Hsel.
    by rewrite dict_get_reverse_last.
  - intros Hnotin.
    rewrite (dict_get_gather_pairs sid recorded g share) by done.
    by rewrite Hnone.
  - intros Hall. unfold gather_pairs. clear Hin Hnodup.
    induction recorded as [|entry recorded IH]; [done|].
    simpl. rewrite Hnone by (apply Hall; set_solver).
    simpl. apply IH. intros entry' Hin. apply Hall. set_solver.
Qed.

(** X10. The contest a partial decryption is filed under in a bundle plays
    no part: recorded bundles that hold, guardian by guardian, the same
    entries in the same order under the same public key give the same
    prepared dictionary, however the entries are grouped into contests. *)
Theorem prepared_shares_ignore_contests
    (recorded1 recorded2 : list (string * Share)) :
  Forall2 same_entries recorded1 recorded2 →
  _prepare_shares_for_decryption recorded1
  = _prepare_shares_for_decryption recorded2.
Proof.
  intros Hsame. rewrite !prepare_unfold.
  generalize ([] : list (string * list (string * KeyAndShare))).
  induction Hsame as [|entry1 entry2 recorded1 recorded2 (Hg & Hkey & Hsel) _ IH];
    intros acc; [done|].
  simpl. rewrite IH. f_equal.
  unfold add_bundle. by rewrite Hg, Hkey, Hsel.
Qed.
End Pairs.

(** ** The tally and the shares *)

Section TallyAndShares.
Context `{EG : Collaborators}.
Implicit Types (bb : BulletinBoard) (c : Call).

(** X11. A failing build does not undo what the verification handler did
    before it, and every later verification tries again: when the
    verifications reach [number_of_guardians] and the builder, given the
    joint key, builds nothing, the dispatcher raises the assertion error of
    [get_optional] with the sender already among the verifications
    received and the joint key already set on the builder; the step stays
    [ProcessTrusteeVerification] and nothing else in the context changes.
    After that any verification message that decodes, also from a guardian
    already received, sets the joint key on the builder once more and
    builds again: it ends the key ceremony when the builder now builds and
    raises again when it does not. *)
Theorem failed_build_keeps_verifying
    bb (received : gset string) (message : Content)
    (v : TrusteeVerification) (N : nat) (builder : ElectionBuilder) :
  step bb = ProcessTrusteeVerification received →
  decode_TrusteeVerification (content message) = Some v →
  number_of_guardians (context bb) = Some N →
  N ≤ size (received ∪ {[ verification_guardian_id v ]}) →
  election_builder (context bb) = Some builder →
  let joint_key :=
    elgamal_combine_public_keys (dict_values (public_keys (context bb))) in
  build (set_public_key joint_key builder) = None →
  let with_builder (b : ElectionBuilder) parameters :=
    {| public_keys := public_keys (context bb);
       has_joint_key := has_joint_key (context bb);
       shares := shares (context bb);
       tally := tally (context bb);
       number_of_guardians := Some N;
       election_builder := Some b;
       election_metadata :=
         from_option (Some ∘ fst) (election_metadata (context bb)) parameters;
       election_context :=
         from_option (Some ∘ snd) (election_context (context bb)) parameters
    |} in
  let received' := received ∪ {[ verification_guardian_id v ]} in
  let failed :=
    {| context := with_builder (set_public_key joint_key builder) None;
       step := ProcessTrusteeVerification received' |} in
  Wrapper_process_message bb "key_ceremony.trustee_verification" message
  = (failed, Raise AssertionError)
  ∧ ∀ (message' : Content) (v' : TrusteeVerification),
      decode_TrusteeVerification (content message') = Some v' →
      let builder' :=
        set_public_key joint_key (set_public_key joint_key builder) in
      Wrapper_process_message failed "key_ceremony.trustee_verification"
        message'
      = match build builder' with
        | Some parameters =>
            ({| context := with_builder builder' (Some parameters);
                step := ProcessStartVote |},
             Return (Some (end_key_ceremony joint_key)))
        | None =>
            ({| context := with_builder builder' None;
                step :=
                  ProcessTrusteeVerification
                    (received' ∪ {[ verification_guardian_id v' ]}) |},
             Raise AssertionError)
        end.
Proof.
  intros Hstep Hdec HN Hquorum Hbuilder joint_key Hbuild
    with_builder received' failed.
  split.
  - unfold Wrapper_process_message. rewrite Hstep. simpl.
    unfold ProcessTrusteeVerification_process_message, deserialize.
    rewrite Hdec, HN. rewrite decide_False by lia.
    rewrite Hbuilder. fold joint_key. rewrite Hbuild.
    subst failed with_builder received'. unfold set_election_builder. simpl.
    by rewrite HN.
  - intros message' v' Hdec' builder'.
    unfold Wrapper_process_message. subst failed. simpl.
    unfold ProcessTrusteeVerification_process_message, deserialize.
    rewrite Hdec'. simpl. rewrite decide_False.
    2:{ assert (size received' ≤ size (received' ∪ {[ verification_guardian_id v' ]}))
          by (apply subseteq_size; set_solver).
        subst received'. lia. }
    fold joint_key. fold builder'.
    by destruct (build builder') as [[metadata ectx]|].
Qed.

Lemma shares_empty_call bb c :
  step_rank (step (call bb c)) < 8 →
  shares (context bb) = [] →
  shares (context (call bb c)) = [].
Proof.
  destruct c as [message_type message|ballot|]; simpl; [| |done].
  - unfold Wrapper_process_message.
    destruct (skip_message (step bb) message_type); [done|].
    destruct bb as [context s]. simpl.
    destruct s; simpl.
    + unfold ProcessCreateElection_process_message, build_election.
      by destruct (election_skeleton (content message)) as [[n b]|].
    + done.
    + unfold ProcessTrusteeElectionKeys_process_message, deserialize.
      destruct (decode_PublicKeySet (content message)); simpl; [|done].
      destruct (number_of_guardians context); simpl; [|done].
      by destruct (decide _).
    + unfold ProcessTrusteeElectionPartialKeys_process_message, deserialize.
      destruct (decode_TrusteePartialKeys (content message)); simpl; [|done].
      destruct (number_of_guardians context); simpl; [|done].
      by destruct (decide _).
    + unfold ProcessTrusteeVerification_process_message, deserialize.
      destruct (decode_TrusteeVerification (content message)); simpl; [|done].
      destruct (number_of_guardians context); simpl; [|done].
      destruct (decide _); simpl; [done|].
      destruct (election_builder context); simpl; [|done].
      by destruct (build _) as [[metadata ectx]|].
    + done.
    + unfold ProcessCastVote_process_message, deserialize.
      destruct (decide _).
      * by destruct (election_metadata context), (election_context context).
      * simpl. destruct (decode_CiphertextBallot _); simpl; [|done].
        destruct (election_metadata context); simpl; [|done].
        destruct (election_context context); simpl; [|done].
        by destruct (ballot_is_valid_for_election _ _ _).
    + done.
    + unfold ProcessTrusteeShare_process_message, deserialize.
      destruct (decode_TrusteeShare _); simpl; [|done].
      destruct (number_of_guardians context); simpl; [|lia].
      destruct (decide _); simpl; [lia|].
      destruct (tally_results _); simpl; lia.
  - unfold add_ballot, deserialize.
    destruct (decode_CiphertextBallot ballot); simpl; [|done].
    by destruct (tally (context bb)).
Qed.

(** X12. Share bundles are recorded by the share step only: on every board
    a sequence of calls leads to whose step comes before
    [ProcessTrusteeShare], no bundle is recorded, whatever share messages
    were sent early. *)
Theorem no_share_before_the_share_step bb :
  reachable bb →
  step_rank (step bb) < 8 →
  shares (context bb) = [].
Proof.
  intros [calls ->].
  induction calls as [|c calls IH] using rev_ind; [done|].
  rewrite run_snoc. intros Hrank. apply shares_empty_call; [done|].
  apply IH. pose proof (step_rank_call (run BulletinBoard_init calls) c). lia.
Qed.

Lemma tally_all_cons ballot ballots (t : CiphertextTally) :
  tally_all (ballot :: ballots) t = tally_all ballots (tally_all [ballot] t).
Proof.
  unfold tally_all. simpl. by destruct (decode_CiphertextBallot ballot).
Qed.

Lemma tally_after_call bb c t :
  vote_closed (step bb) = true →
  tally (context bb) = Some t →
  vote_closed (step (call bb c)) = true
  ∧ tally (context (call bb c)) = Some (tally_all (ballots_added [c]) t).
Proof.
  intros Hclosed Ht.
  destruct c as [message_type message|ballot|]; simpl; [| |done].
  - unfold Wrapper_process_message.
    destruct (skip_message (step bb) message_type); [done|].
    destruct bb as [context s]. simpl in *.
    destruct s; try discriminate Hclosed; simpl; [done|].
    unfold ProcessTrusteeShare_process_message, deserialize.
    destruct (decode_TrusteeShare _); simpl; [|done].
    destruct (number_of_guardians context); simpl; [|done].
    destruct (decide _); simpl; [done|].
    by destruct (tally_results _).
  - destruct (add_ballot_with_tally bb ballot t Ht) as [-> ->]. done.
Qed.

(** X13. After [end_vote] the tally is the new tally with the added ballots
    tallied, and nothing else: from a board a sequence of calls leads to
    with [ProcessCastVote] active, [end_vote] followed by any sequence of
    calls leaves in the context the tally made from the election
    parameters with exactly the ballots handed to [add_ballot] since,
    those that decode, tallied in order; no message, the share messages
    included, touches it. *)
Theorem tally_is_the_added_ballots bb (message : Content) (calls : list Call) :
  reachable bb →
  step bb = ProcessCastVote →
  ∃ metadata ectx,
    election_metadata (context bb) = Some metadata
    ∧ election_context (context bb) = Some ectx
    ∧ tally (context (run bb (Submit "end_vote" message :: calls)))
      = Some (tally_all (ballots_added calls)
                (new_CiphertextTally "election-results" metadata ectx)).
Proof.
  intros Hbb Hstep.
  destruct (end_vote_on_reachable bb Hbb Hstep)
    as (metadata & ectx & Hm & He & Hend).
  exists metadata, ectx. split_and!; [done|done|].
  change (run bb (Submit "end_vote" message :: calls))
    with (run (Wrapper_process_message bb "end_vote" message).1 calls).
  rewrite Hend. cbn [fst].
  generalize (new_CiphertextTally "election-results" metadata ectx).
  intros t.
  set (closed := {| context := set_tally t (context bb);
                    step := ProcessStartTally |}).
  assert (Hclosed : vote_closed (step closed) = true) by done.
  assert (Ht : tally (context closed) = Some t) by done.
  clearbody closed. revert closed t Hclosed Ht.
  induction calls as [|c calls IH]; intros closed t Hclosed Ht; [done|].
  destruct (tally_after_call closed c t Hclosed Ht) as [Hclosed' Ht'].
  change (run closed (c :: calls)) with (run (call closed c) calls).
  rewrite (IH _ _ Hclosed' Ht'). f_equal.
  destruct c as [| ballot |]; try done.
  exact (eq_sym (tally_all_cons ballot (ballots_added calls) t)).
Qed.
End TallyAndShares.

(** ** The key ceremony as a whole *)

Section WholeCeremony.
Context `{EG : Collaborators}.
Implicit Types (bb : BulletinBoard) (c : Call) (m : Content).

Lemma run_app bb (calls1 calls2 : list Call) :
  run bb (calls1 ++ calls2) = run (run bb calls1) calls2.
Proof. unfold run. by rewrite fold_left_app. Qed.

Lemma run_submissions messages : ∀ bb,
  run bb (submissions messages) = submit_all bb messages.
Proof. induction messages as [|m messages IH]; intros bb; [done|apply IH]. Qed.

Lemma emitted_app (calls1 calls2 : list Call) : ∀ bb,
  emitted bb (calls1 ++ calls2)
  = emitted bb calls1 ++ emitted (run bb calls1) calls2.
Proof.
  induction calls1 as [|c calls1 IH]; intros bb; [done|].
  cbn [emitted app]. rewrite IH. by rewrite <- app_assoc.
Qed.

Lemma step_rank_run (calls : list Call) : ∀ bb,
  step_rank (step bb) ≤ step_rank (step (run bb calls)).
Proof.
  induction calls as [|c calls IH]; intros bb; [done|].
  change (run bb (c :: calls)) with (run (call bb c) calls).
  specialize (IH (call bb c)). pose proof (step_rank_call bb c). lia.
Qed.

(** Nothing is emitted on the way to a step before [ProcessStartVote]. *)
Lemma emitted_before_vote (calls : list Call) : ∀ bb,
  step_rank (step (run bb calls)) < 5 → emitted bb calls = [].
Proof.
  induction calls as [|c calls IH]; intros bb Hrank; [done|].
  change (run bb (c :: calls)) with (run (call bb c) calls) in Hrank.
  cbn [emitted]. rewrite (IH _ Hrank), app_nil_r.
  destruct c as [message_type message| |]; try done.
  destruct (Wrapper_process_message bb message_type message).2
    as [[out|]|] eqn:Hout; try done.
  exfalso. pose proof (step_rank_run calls (call bb (Submit message_type message))).
  pose proof (step_rank_call bb (Submit message_type message)) as Hcall.
  destruct (outbound_origin _ _ _ _ Hout) as [(_ & _ & Hnext)|[_ Hshare]].
  - simpl in *. rewrite Hnext in *. simpl in *. lia.
  - rewrite Hshare in Hcall. simpl in *. lia.
Qed.

Lemma run_submissions_cons bb m messages :
  run bb (submissions (m :: messages))
  = run (Wrapper_process_message bb (message_type m) m).1
      (submissions messages).
Proof. reflexivity. Qed.

Lemma emitted_submissions_cons bb m messages :
  emitted bb (submissions (m :: messages))
  = match (Wrapper_process_message bb (message_type m) m).2 with
    | Return (Some out) => [out]
    | _ => []
    end
    ++ emitted (Wrapper_process_message bb (message_type m) m).1
         (submissions messages).
Proof. reflexivity. Qed.

Lemma submissions_skipped messages bb :
  Forall (fun m => skip_message (step bb) (message_type m) = true) messages →
  run bb (submissions messages) = bb ∧ emitted bb (submissions messages) = [].
Proof.
  revert bb. induction messages as [|m messages IH]; intros bb Hall; [done|].
  apply Forall_cons in Hall as [Hm Hall].
  assert (Hstay : Wrapper_process_message bb (message_type m) m
                  = (bb, Return None)).
  { unfold Wrapper_process_message. by rewrite Hm. }
  rewrite run_submissions_cons, emitted_submissions_cons, Hstay.
  cbn [fst snd]. destruct (IH bb Hall) as [Hrun Hemitted].
  by rewrite Hrun, Hemitted.
Qed.

(** The guardian-key phase when every message comes from a guardian not
    seen before. *)
Lemma keys_phase_fresh N messages : ∀ bb,
  step bb = ProcessTrusteeElectionKeys →
  number_of_guardians (context bb) = Some N →
  Forall keys_message messages →
  NoDup (dict_keys (public_keys (context bb)) ++ senders messages) →
  length (public_keys (context bb)) + length messages ≤ N →
  length (public_keys (context bb)) < N →
  submit_all bb messages
  = {| context :=
         set_public_keys
           (public_keys (context bb) ++ recorded_keys messages) (context bb);
       step :=
         if decide (length (public_keys (context bb)) + length messages = N)
         then ProcessTrusteeElectionPartialKeys ∅
         else ProcessTrusteeElectionKeys |}.
Proof.
  induction messages as [|m messages IH];
    intros bb Hstep HN Hall Hnodup Hle Hlt.
  - rewrite decide_False by (simpl; lia).
    unfold recorded_keys. simpl. rewrite app_nil_r.
    destruct bb as [[] s]. simpl in Hstep. by subst s.
  - apply Forall_cons in Hall as [[Htype [pks Hdec]] Hall].
    destruct (keys_message_step bb m N pks Hstep HN Htype Hdec) as [Hrun _].
    rewrite submit_all_cons, Hrun. clear Hrun. cbn [fst].
    assert (Hsenders : senders (m :: messages) = owner_id pks :: senders messages).
    { unfold senders. simpl. by rewrite Hdec. }
    rewrite Hsenders in Hnodup.
    assert (Hfresh : owner_id pks ∉ dict_keys (public_keys (context bb))).
    { apply NoDup_app in Hnodup as (_ & Hdisjoint & _).
      intros Hin. apply (Hdisjoint _ Hin). set_solver. }
    rewrite dict_set_notin_app by done.
    assert (Hrecorded : recorded_keys (m :: messages)
                        = (owner_id pks, election_public_key pks)
                          :: recorded_keys messages).
    { unfold recorded_keys. simpl. by rewrite Hdec. }
    rewrite Hrecorded.
    set (recorded := public_keys (context bb)
                     ++ [(owner_id pks, election_public_key pks)]).
    assert (Hlen : length recorded = S (length (public_keys (context bb)))).
    { subst recorded. rewrite length_app. simpl. lia. }
    simpl in Hle.
    destruct (decide (length recorded = N)) as [Heq|Hne].
    + assert (messages = []) as -> by (destruct messages; [done|simpl in Hle; lia]).
      simpl. rewrite decide_True by lia. subst recorded.
      unfold recorded_keys. simpl. done.
    + rewrite IH; try done; simpl.
      * subst recorded. rewrite <- app_assoc. simpl.
        rewrite Hlen.
        replace (S (length (public_keys (context bb))) + length messages)
          with (length (public_keys (context bb)) + S (length messages)) by lia.
        done.
      * subst recorded. unfold dict_keys. rewrite fmap_app. simpl.
        rewrite <- app_assoc. simpl.
        exact Hnodup.
      * lia.
      * lia.
Qed.

(** The verification phase up to quorum, with a builder that builds. *)
Lemma verification_phase_run N builder metadata ectx messages :
  ∀ bb (received : gset string),
  step bb = ProcessTrusteeVerification received →
  number_of_guardians (context bb) = Some N →
  size received < N →
  election_builder (context bb) = Some builder →
  let joint_key :=
    elgamal_combine_public_keys (dict_values (public_keys (context bb))) in
  build (set_public_key joint_key builder) = Some (metadata, ectx) →
  Forall verification_message messages →
  N ≤ size (received ∪ list_to_set (verification_senders messages)) →
  run bb (submissions messages)
  = {| context :=
         set_election_parameters metadata ectx
           (set_election_builder (set_public_key joint_key builder)
              (context bb));
       step := ProcessStartVote |}
  ∧ emitted bb (submissions messages) = [end_key_ceremony joint_key].
Proof.
  induction messages as [|m messages IH];
    intros bb received Hstep HN Hlt Hbuilder joint_key Hbuild Hall Hquorum.
  { simpl in Hquorum. rewrite union_empty_r_L in Hquorum. lia. }
  apply Forall_cons in Hall as [[Htype [v Hdec]] Hall].
  set (received' := received ∪ {[ verification_guardian_id v ]}).
  assert (Hseen : received ∪ list_to_set (verification_senders (m :: messages))
                  = received' ∪ list_to_set (verification_senders messages)).
  { subst received'. unfold verification_senders. simpl. rewrite Hdec.
    simpl. set_solver. }
  rewrite Hseen in Hquorum.
  rewrite run_submissions_cons, emitted_submissions_cons.
  destruct (decide (size received' < N)) as [Hbelow|Hreached].
  - assert (Hrun : Wrapper_process_message bb (message_type m) m
                   = ({| context := context bb;
                         step := ProcessTrusteeVerification received' |},
                      Return None)).
    { unfold Wrapper_process_message. rewrite Hstep, Htype. simpl.
      unfold ProcessTrusteeVerification_process_message, deserialize.
      rewrite Hdec, HN. fold received'. by rewrite decide_True. }
    rewrite Hrun. cbn [fst snd app].
    exact (IH {| context := context bb;
                 step := ProcessTrusteeVerification received' |}
             received' eq_refl HN Hbelow Hbuilder Hbuild Hall Hquorum).
  - assert (Hrun : Wrapper_process_message bb (message_type m) m
                   = ({| context :=
                           set_election_parameters metadata ectx
                             (set_election_builder
                                (set_public_key joint_key builder)
                                (context bb));
                         step := ProcessStartVote |},
                      Return (Some (end_key_ceremony joint_key)))).
    { unfold Wrapper_process_message. rewrite Hstep, Htype. simpl.
      unfold ProcessTrusteeVerification_process_message, deserialize.
      rewrite Hdec, HN. fold received'. rewrite decide_False by done.
      rewrite Hbuilder. fold joint_key. by rewrite Hbuild. }
    rewrite Hrun. cbn [fst snd].
    destruct (submissions_skipped messages
      {| context :=
           set_election_parameters metadata ectx
             (set_election_builder (set_public_key joint_key builder)
                (context bb));
         step := ProcessStartVote |}) as [-> ->]; [|done].
    eapply Forall_impl; [exact Hall|]. intros m' [-> _]. reflexivity.
Qed.

(** X14. The key ceremony from a new bulletin board, for any number
    [N >= 1] of guardians: [create_election] announcing [N] guardians,
    [start_key_ceremony], one key from each of [N] distinct guardians,
    partial-keys messages and then verification messages from [N] distinct
    guardians each, in whatever order and with whatever repetitions. With a
    builder that builds, the run ends in [ProcessStartVote] with the keys
    recorded in the order they came, the joint key, their combination, set
    on the builder, the election parameters stored, no bundle, no tally, and
    [has_joint_key] still false; and it emits the one message
    [end_key_ceremony] with the joint key. *)
Theorem key_ceremony_end_to_end
    (N : nat) (builder : ElectionBuilder)
    (metadata : InternalElectionDescription) (ectx : CiphertextElectionContext)
    (create start : Content) (keys partials verifications : list Content) :
  1 ≤ N →
  message_type create = "create_election" →
  election_skeleton (content create) = Some (N, builder) →
  message_type start = "start_key_ceremony" →
  Forall keys_message keys →
  NoDup (senders keys) →
  length keys = N →
  Forall partial_keys_message partials →
  size (list_to_set (C := gset string) (partial_keys_senders partials)) = N →
  Forall verification_message verifications →
  size (list_to_set (C := gset string) (verification_senders verifications)) = N →
  let joint_key :=
    elgamal_combine_public_keys (dict_values (recorded_keys keys)) in
  build (set_public_key joint_key builder) = Some (metadata, ectx) →
  let calls :=
    submissions (create :: start :: keys ++ partials ++ verifications) in
  run BulletinBoard_init calls
  = {| context :=
         {| public_keys := recorded_keys keys;
            has_joint_key := false;
            shares := [];
            tally := None;
            number_of_guardians := Some N;
            election_builder := Some (set_public_key joint_key builder);
            election_metadata := Some metadata;
            election_context := Some ectx |};
       step := ProcessStartVote |}
  ∧ emitted BulletinBoard_init calls = [end_key_ceremony joint_key].
Proof.
  intros HN1 Hcreate Hskeleton Hstart Hkeys Hnodup Hlen Hpartials Hpsize
    Hverifications Hvsize joint_key Hbuild calls.
  set (opened := {| context :=
                      {| public_keys := [];
                         has_joint_key := false;
                         shares := [];
                         tally := None;
                         number_of_guardians := Some N;
                         election_builder := Some builder;
                         election_metadata := None;
                         election_context := None |};
                    step := ProcessTrusteeElectionKeys |}).
  assert (Hopened : run BulletinBoard_init (submissions [create; start])
                    = opened).
  { unfold run, submissions. simpl. unfold Wrapper_process_message at 2.
    rewrite Hcreate. simpl.
    unfold ProcessCreateElection_process_message, build_election.
    rewrite Hskeleton. simpl. unfold Wrapper_process_message.
    by rewrite Hstart. }
  assert (Hempty : size (∅ : gset string) < N) by (rewrite size_empty; lia).
  set (keyed := {| context := set_public_keys (recorded_keys keys)
                                (context opened);
                   step := ProcessTrusteeElectionPartialKeys ∅ |}).
  assert (Hkeyed : run opened (submissions keys) = keyed).
  { rewrite run_submissions.
    rewrite (keys_phase_fresh N keys opened); try done; simpl; try lia.
    by rewrite decide_True. }
  set (verifying := {| context := context keyed;
                       step := ProcessTrusteeVerification ∅ |}).
  assert (Hverifying : run keyed (submissions partials) = verifying).
  { rewrite run_submissions.
    destruct (partial_keys_phase_run N partials keyed ∅
                eq_refl eq_refl Hempty Hpartials)
      as (Hcontext & _ & Hreached).
    rewrite union_empty_l_L in Hreached.
    destruct Hreached as [Hstep _]; [lia|].
    destruct (submit_all keyed partials) as [context' step'].
    simpl in *. by subst. }
  assert (Hreached : N ≤ size ((∅ : gset string)
                               ∪ list_to_set
                                   (verification_senders verifications)))
    by (rewrite union_empty_l_L; lia).
  destruct (verification_phase_run N builder metadata ectx verifications
              verifying ∅ eq_refl eq_refl Hempty eq_refl Hbuild
              Hverifications Hreached) as [Hrun Hemitted].
  assert (Hcalls : calls = submissions [create; start]
                           ++ submissions keys ++ submissions partials
                           ++ submissions verifications).
  { subst calls. unfold submissions. by rewrite !fmap_cons, !fmap_app. }
  rewrite Hcalls. split.
  - rewrite !run_app, Hopened, Hkeyed, Hverifying. exact Hrun.
  - rewrite !app_assoc, emitted_app.
    rewrite emitted_before_vote.
    + rewrite !run_app, Hopened, Hkeyed, Hverifying. exact Hemitted.
    + rewrite !run_app, Hopened, Hkeyed, Hverifying. simpl. lia.
Qed.
End WholeCeremony.

(** ** The small election, run *)

Section Runs.
Existing Instance Demo.collaborators.

(** C1 at two guardians: keys from bob and alice, bob's twice. *)
Lemma guardian_keys_quorum_witness :
  let messages :=
    [ Demo.keys_of "bob" 4; Demo.keys_of "bob" 5; Demo.keys_of "alice" 3 ] in
  step (submit_all Demo.collecting_keys messages)
  = ProcessTrusteeElectionPartialKeys ∅
  ∧ count_transitions Demo.collecting_keys messages = 1.
Proof.
  intros messages.
  refine (proj1 (guardian_keys_quorum Demo.collecting_keys 2 messages
                   _ _ _ _ _) _).
  - exists (take 2 Demo.key_ceremony). reflexivity.
  - reflexivity.
  - reflexivity.
  - repeat constructor.
  - repeat constructor; by eexists.
  - vm_compute. reflexivity.
Defined.

(** C2 at two guardians, with the keys 3 and 4 recorded: alice's
    verification completes the set, and the joint key 7 is on the builder,
    in the parameters and in the message. *)
Lemma verification_quorum_witness :
  ProcessTrusteeVerification_process_message {[ "bob" ]}
    "key_ceremony.trustee_verification" (Demo.verification_of "alice")
    (context Demo.verifying)
  = (ProcessTrusteeVerification ({[ "bob" ]} ∪ {[ "alice" ]}),
     {| public_keys := [("alice", 3); ("bob", 4)];
        has_joint_key := false;
        shares := [];
        tally := None;
        number_of_guardians := Some 2;
        election_builder := Some (Some 7);
        election_metadata := Some tt;
        election_context := Some 7 |},
     Return (Some {| out_message_type := "end_key_ceremony";
                     out_body := content_of (Demo.JointKey 7) |},
             Some ProcessStartVote)).
Proof.
  refine (proj1 (verification_quorum {[ "bob" ]}
                   (Demo.verification_of "alice") (context Demo.verifying)
                   {| verification_guardian_id := "alice" |} 2 _ _)
            _ None tt 7 _ _).
  - reflexivity.
  - reflexivity.
  - vm_compute. repeat constructor.
  - reflexivity.
  - reflexivity.
Defined.


(** C5 at two guardians, with the keys 3 and 4 recorded and bob's
    verification received: alice's verification brings the joint key 7,
    in the message, on the builder and in the parameters; and with the vote
    open a guardian-key message changes nothing. *)
Lemma joint_key_from_recorded_keys_witness :
  Wrapper_process_message Demo.verifying "key_ceremony.trustee_verification"
    (Demo.verification_of "alice")
  = ({| context :=
          {| public_keys := [("alice", 3); ("bob", 4)];
             has_joint_key := false;
             shares := [];
             tally := None;
             number_of_guardians := Some 2;
             election_builder := Some (Some 7);
             election_metadata := Some tt;
             election_context := Some 7 |};
        step := ProcessStartVote |},
     Return (Some {| out_message_type := "end_key_ceremony";
                     out_body := content_of (Demo.JointKey 7) |}))
  ∧ Wrapper_process_message Demo.voting "key_ceremony.trustee_election_keys"
      (Demo.keys_of "alice" 9)
    = (Demo.voting, Return None).
Proof.
  split.
  - assert (Hreachable : reachable Demo.verifying)
      by (exists (take 7 Demo.key_ceremony); reflexivity).
    assert (Hstep : step Demo.verifying
                    = ProcessTrusteeVerification (∅ ∪ {[ "bob" ]}))
      by (vm_compute; reflexivity).
    destruct (proj1 (joint_key_from_recorded_keys Demo.verifying Hreachable)
                (∅ ∪ {[ "bob" ]}) (Demo.verification_of "alice")
                {| verification_guardian_id := "alice" |} Hstep eq_refl)
      as (_ & _ & builder & Hbuilder & Hquorum).
    vm_compute in Hbuilder. injection Hbuilder as <-.
    assert (Hreached : length (dict_values (public_keys (context Demo.verifying)))
                       ≤ size ((∅ ∪ {[ "bob" ]} : gset string)
                               ∪ {[ "alice" ]}))
      by (vm_compute; repeat constructor).
    assert (Hbuild : build (set_public_key
                              (elgamal_combine_public_keys
                                 (dict_values
                                    (public_keys (context Demo.verifying))))
                              None)
                     = Some (tt, 7))
      by (vm_compute; reflexivity).
    pose proof (Hquorum Hreached tt 7 Hbuild) as Hrun.
    vm_compute in Hrun. vm_compute. exact Hrun.
  - refine (proj1 (proj2 (proj2
              (joint_key_from_recorded_keys Demo.voting _)) _) _).
    + by exists Demo.key_ceremony.
    + reflexivity.
Defined.

(** C9 on the board with the vote open, where the election parameters built
    from the joint key are in the context. *)
Lemma has_joint_key_stays_false_witness :
  election_context (context Demo.voting) = Some 7
  ∧ has_joint_key (context Demo.voting) = false.
Proof.
  split; [reflexivity|].
  apply (has_joint_key_stays_false Demo.voting).
  by exists Demo.key_ceremony.
Defined.

(** C6, as stated, fails on the bundles of [Demo.incomplete_shares]: with
    two guardians, two bundles recorded and [end_tally] emitted, the
    combination is given one partial decryption of ["selection-1"], a
    selection of the cast tally, not two. *)
Lemma share_combination_fewer_pairs :
  let bb := submit_all Demo.tallying Demo.incomplete_shares in
  number_of_guardians (context bb) = Some 2
  ∧ dict_keys (shares (context bb)) = ["alice"; "bob"]
  ∧ last (outcomes Demo.tallying Demo.incomplete_shares)
    = Some (Return
              (Some (end_tally
                       [("contest-1",
                         Demo.ContestOf "contest-1" [("selection-1", 12)])])))
  ∧ (∃ t contest,
       tally (context bb) = Some t
       ∧ dict_get "contest-1" (cast t) = Some contest
       ∧ is_Some (dict_get "selection-1" (tally_selections contest)))
  ∧ defaultdict_get "selection-1"
      (_prepare_shares_for_decryption (shares (context bb)))
    = [("alice", (3, 1))]
  ∧ length (defaultdict_get "selection-1"
              (_prepare_shares_for_decryption (shares (context bb)))) ≠ 2.
Proof.
  cbv zeta. split_and!; try (vm_compute; reflexivity).
  - exists 11, 11. split_and!; try (vm_compute; reflexivity).
    vm_compute. by eexists.
  - vm_compute. discriminate.
Qed.

(** The decryption of the small election adds the shares up, in whatever
    order they come. *)
Lemma sum_of_shares_Permutation (pairs1 pairs2 : list (string * (nat * nat))) :
  pairs1 ≡ₚ pairs2 →
  foldr Nat.add 0 ((fun s => s.2.2) <$> pairs1)
  = foldr Nat.add 0 ((fun s => s.2.2) <$> pairs2).
Proof.
  induction 1 as [|x l1 l2 _ IH|x y l|l1 l2 l3 _ IH1 _ IH2].
  - reflexivity.
  - rewrite !fmap_cons. cbn [foldr]. by rewrite IH.
  - rewrite !fmap_cons. cbn [foldr]. lia.
  - congruence.
Qed.

(** C6 at two guardians, with eleven tallied: alice then bob, or bob then
    alice, the last answer is [end_tally] with the selection decrypted from
    both shares, 1 and 2, to fourteen. *)
Lemma share_combination_pairs_and_order_witness :
  let messages1 :=
    [ Demo.share_of (Demo.bundle "alice" 3 1);
      Demo.share_of (Demo.bundle "bob" 4 2) ] in
  let messages2 :=
    [ Demo.share_of (Demo.bundle "bob" 4 2);
      Demo.share_of (Demo.bundle "alice" 3 1) ] in
  let answer :=
    Some (Return
            (Some (end_tally
                     [("contest-1",
                       Demo.ContestOf "contest-1" [("selection-1", 14)])]))) in
  last (outcomes Demo.tallying messages1) = answer
  ∧ last (outcomes Demo.tallying messages2) = answer
  ∧ last (outcomes Demo.tallying messages1)
    = last (outcomes Demo.tallying messages2).
Proof.
  intros messages1 messages2 answer.
  assert (Hall : Forall share_message messages1)
    by (repeat constructor; by eexists).
  assert (Hnodup : NoDup (guardian_id <$> bundles messages1))
    by (apply (bool_decide_unpack _); by vm_compute).
  destruct (share_combination_pairs_and_order Demo.tallying 2
              messages1 messages2 eq_refl eq_refl eq_refl Hall Hnodup
              (perm_swap _ _ _))
    as (_ & _ & _ & Hanswer & Hsame).
  assert (Hsome : messages1 ≠ []) by discriminate.
  pose proof (Hanswer Hsome messages1 (or_introl eq_refl)) as Hanswer1.
  pose proof (Hanswer Hsome messages2 (or_intror eq_refl)) as Hanswer2.
  split_and!.
  - vm_compute in Hanswer1. vm_compute. exact Hanswer1.
  - vm_compute in Hanswer2. vm_compute. exact Hanswer2.
  - apply Hsame. intros selection pairs1 pairs2 hash Hperm.
    exact (f_equal (fun n => Some (Nat.add selection n))
             (sum_of_shares_Permutation pairs1 pairs2 Hperm)).
Defined.

(** C7, as stated, fails on the board with the vote open: the tally does not
    exist before [end_vote], and adding a valid ballot raises. *)
Lemma add_ballot_during_vote_raises :
  reachable Demo.voting
  ∧ step Demo.voting = ProcessCastVote
  ∧ decode_CiphertextBallot (Demo.Ballot 5) = Some 5
  ∧ ballot_is_valid_for_election 5 tt 7 = true
  ∧ add_ballot Demo.voting (Demo.Ballot 5)
    = (Demo.voting, Raise AttributeError).
Proof. split_and!; try reflexivity. by exists Demo.key_ceremony. Qed.

(** C7 on the board with the tally started, with eleven tallied: the
    ballot 9 brings the tally to twenty and the call returns; the ballot 13
    makes the library raise, and the exception escapes. *)
Lemma add_ballot_once_vote_closed_witness :
  add_ballot Demo.tallying (Demo.Ballot 9)
  = ({| context :=
          {| public_keys := [("alice", 3); ("bob", 4)];
             has_joint_key := false;
             shares := [];
             tally := Some 20;
             number_of_guardians := Some 2;
             election_builder := Some (Some 7);
             election_metadata := Some tt;
             election_context := Some 7 |};
        step := ProcessTrusteeShare |}, Return ())
  ∧ add_ballot Demo.tallying (Demo.Ballot 13)
    = ({| context :=
            {| public_keys := [("alice", 3); ("bob", 4)];
               has_joint_key := false;
               shares := [];
               tally := Some 11;
               number_of_guardians := Some 2;
               election_builder := Some (Some 7);
               election_metadata := Some tt;
               election_context := Some 7 |};
          step := ProcessTrusteeShare |}, Raise LibraryError).
Proof.
  assert (Hreachable : reachable Demo.tallying).
  { exists (Demo.key_ceremony ++ Demo.closing). vm_compute. reflexivity. }
  split.
  - destruct (proj1 (add_ballot_once_vote_closed Demo.tallying (Demo.Ballot 9)
                       Hreachable) eq_refl 9 eq_refl) as (t & Ht & Hadd).
    vm_compute in Ht. injection Ht as <-.
    vm_compute in Hadd. vm_compute. exact Hadd.
  - destruct (proj1 (add_ballot_once_vote_closed Demo.tallying (Demo.Ballot 13)
                       Hreachable) eq_refl 13 eq_refl) as (t & Ht & Hadd).
    vm_compute in Ht. injection Ht as <-.
    vm_compute in Hadd. vm_compute. exact Hadd.
Defined.

(** C8, as stated, fails on the board with the vote open: mid-voting the
    tally does not exist and the export raises. *)
Lemma get_tally_cast_during_vote_raises :
  reachable Demo.voting
  ∧ step Demo.voting = ProcessCastVote
  ∧ get_tally_cast Demo.voting = Raise AttributeError.
Proof. split_and!; try reflexivity. by exists Demo.key_ceremony. Qed.

(** C8 on the board with the tally started. *)
Lemma get_tally_cast_once_vote_closed_witness :
  ∃ t, tally (context Demo.tallying) = Some t
       ∧ ∀ ballots,
           get_tally_cast (run Demo.tallying (AddBallot <$> ballots))
           = Return {| out_message_type := "tally.cast";
                       out_body :=
                         content_of
                           (serialize_cast (cast (tally_all ballots t))) |}.
Proof.
  refine (proj1 (get_tally_cast_once_vote_closed Demo.tallying _) _).
  - exists (Demo.key_ceremony ++ Demo.closing). vm_compute. reflexivity.
  - reflexivity.
Defined.

(** C10 at two guardians: after bob's bundle brought [end_tally], another
    bundle from alice brings it again, with other results. *)
Lemma end_tally_emitted_again_witness :
  let bb :=
    (Wrapper_process_message Demo.one_share "tally.trustee_share"
       (Demo.share_of (Demo.bundle "bob" 4 2))).1 in
  (Wrapper_process_message bb "tally.trustee_share"
     (Demo.share_of (Demo.bundle "alice" 3 5))).2
  = Return (Some (end_tally
                    [("contest-1",
                      Demo.ContestOf "contest-1" [("selection-1", 18)])])).
Proof.
  refine (f_equal snd
            (proj2 (proj2 (proj2
               (end_tally_emitted_again Demo.one_share
                  (Demo.share_of (Demo.bundle "bob" 4 2))
                  (end_tally
                     [("contest-1",
                       Demo.ContestOf "contest-1" [("selection-1", 14)])])
                  _ _ _)
               (Demo.share_of (Demo.bundle "alice" 3 5))
               (Demo.bundle "alice" 3 5) _ _)))).
  - reflexivity.
  - reflexivity.
  - reflexivity.
  - reflexivity.
  - reflexivity.
Defined.

(** With a decryption that keeps the order of the pairs, the same two
    bundles recorded in the two orders give different results. *)
Lemma results_follow_the_order_of_the_pairs :
  @tally_results Demo.listing
    (Demo.listing_context
       [("alice", Demo.bundle "alice" 3 1); ("bob", Demo.bundle "bob" 4 2)])
  = Return [("contest-1", [("selection-1", ["alice"; "bob"])])]
  ∧ @tally_results Demo.listing
      (Demo.listing_context
         [("bob", Demo.bundle "bob" 4 2); ("alice", Demo.bundle "alice" 3 1)])
    = Return [("contest-1", [("selection-1", ["bob"; "alice"])])].
Proof. split; vm_compute; reflexivity. Qed.

(** X2 at the verification message: two verification steps, with
    different guardians received, accept it. *)
Lemma message_type_of_one_step_witness :
  step_rank (ProcessTrusteeVerification ∅)
  = step_rank (ProcessTrusteeVerification {[ "alice" ]}).
Proof.
  refine (message_type_of_one_step (ProcessTrusteeVerification ∅)
            (ProcessTrusteeVerification {[ "alice" ]})
            "key_ceremony.trustee_verification" _ _);
    reflexivity.
Defined.

(** X3 with the vote open: a [vote.cast] message without a ballot. *)
Lemma undecodable_payload_changes_nothing_witness :
  Wrapper_process_message Demo.voting "vote.cast"
    (Demo.message "vote.cast" Demo.Empty)
  = (Demo.voting, Raise DeserializeError).
Proof.
  refine (undecodable_payload_changes_nothing Demo.voting "vote.cast"
            (Demo.message "vote.cast" Demo.Empty) _ _).
  - reflexivity.
  - vm_compute. intros [H|[b H]]; discriminate H.
Defined.

(** X4 with the vote open. *)
Lemma recorded_keys_bounded_witness :
  length (public_keys (context Demo.voting)) ≤ 2
  ∧ (2 < step_rank (step Demo.voting) →
     length (public_keys (context Demo.voting)) = 2).
Proof.
  refine (recorded_keys_bounded Demo.voting 2 _ _ _).
  - by exists Demo.key_ceremony.
  - reflexivity.
  - repeat constructor.
Defined.

(** X5 on the board of an election without guardians. *)
Lemma no_guardians_no_quorum_witness :
  let messages := [ Demo.keys_of "alice" 3; Demo.keys_of "bob" 4 ] in
  step (submit_all Demo.no_guardians messages) = ProcessTrusteeElectionKeys
  ∧ count_transitions Demo.no_guardians messages = 0.
Proof.
  intros messages.
  refine (no_guardians_no_quorum messages Demo.no_guardians _ _);
    reflexivity.
Defined.

(** X6 at two guardians: alice twice, then bob. *)
Lemma partial_keys_quorum_witness :
  let messages :=
    [ Demo.partial_keys_of "alice"; Demo.partial_keys_of "alice";
      Demo.partial_keys_of "bob" ] in
  step (submit_all Demo.keyed messages) = ProcessTrusteeVerification ∅
  ∧ count_transitions Demo.keyed messages = 1.
Proof.
  intros messages.
  refine (proj2 (proj2 (partial_keys_quorum 2 messages Demo.keyed ∅
                          _ _ _ _)) _).
  - reflexivity.
  - reflexivity.
  - vm_compute. repeat constructor.
  - repeat constructor; by eexists.
  - vm_compute. repeat constructor.
Defined.

(** X7 with the vote open: an invalid and a valid ballot leave the board
    as it is, and [end_vote] leaves the new, empty tally in the context. *)
Lemma cast_votes_leave_no_trace_witness :
  submit_all Demo.voting
    [ Demo.message "vote.cast" (Demo.Ballot 0);
      Demo.message "vote.cast" (Demo.Ballot 5) ]
  = Demo.voting
  ∧ Wrapper_process_message Demo.voting "end_vote"
      (Demo.message "end_vote" Demo.Empty)
    = ({| context :=
            {| public_keys := [("alice", 3); ("bob", 4)];
               has_joint_key := false;
               shares := [];
               tally := Some 0;
               number_of_guardians := Some 2;
               election_builder := Some (Some 7);
               election_metadata := Some tt;
               election_context := Some 7 |};
          step := ProcessStartTally |}, Return None).
Proof.
  assert (Hreachable : reachable Demo.voting)
    by (exists Demo.key_ceremony; reflexivity).
  destruct (cast_votes_leave_no_trace Demo.voting Hreachable eq_refl)
    as (Hcast & metadata & ectx & Hmetadata & Hectx & Hend).
  split.
  - apply Hcast. repeat constructor.
  - pose proof (Hend (Demo.message "end_vote" Demo.Empty)) as Hrun.
    vm_compute in Hmetadata. injection Hmetadata as <-.
    vm_compute in Hectx. injection Hectx as <-.
    vm_compute in Hrun. vm_compute. exact Hrun.
Defined.

(** X9 for alice's bundle in two contests: the last entry of
    ["selection-1"] is the one paired. *)
Lemma prepared_pair_of_guardian_witness :
  dict_get "alice"
    (defaultdict_get "selection-1"
       (@_prepare_shares_for_decryption Demo.collaborators
          [("alice", Demo.two_contests); ("bob", Demo.bundle "bob" 4 2)]))
  = Some (3, 9).
Proof.
  refine (proj1 (@prepared_pair_of_guardian Demo.collaborators
                   [("alice", Demo.two_contests);
                    ("bob", Demo.bundle "bob" 4 2)]
                   "selection-1" "alice" Demo.two_contests _ _)
            [("selection-1", 1); ("selection-2", 8)] 9 [] _ _).
  - apply (bool_decide_unpack _). by vm_compute.
  - apply list_elem_of_here.
  - reflexivity.
  - apply not_elem_of_nil.
Defined.

(** X10 for alice's bundle in two contests and in one. *)
Lemma prepared_shares_ignore_contests_witness :
  @_prepare_shares_for_decryption Demo.collaborators
    [("alice", Demo.two_contests)]
  = @_prepare_shares_for_decryption Demo.collaborators
      [("alice", Demo.one_contest)].
Proof.
  refine (@prepared_shares_ignore_contests Demo.collaborators
            [("alice", Demo.two_contests)] [("alice", Demo.one_contest)] _).
  repeat constructor.
Defined.

(** X11 with keys that add up to zero: alice's verification completes the
    set, the build fails, and the joint key 0 is on the builder. *)
Lemma failed_build_keeps_verifying_witness :
  Wrapper_process_message (run BulletinBoard_init Demo.null_keys)
    "key_ceremony.trustee_verification" (Demo.verification_of "alice")
  = ({| context :=
          {| public_keys := [("alice", 0); ("bob", 0)];
             has_joint_key := false;
             shares := [];
             tally := None;
             number_of_guardians := Some 2;
             election_builder := Some (Some 0);
             election_metadata := None;
             election_context := None |};
        step := ProcessTrusteeVerification ({[ "bob" ]} ∪ {[ "alice" ]}) |},
     Raise AssertionError).
Proof.
  refine (proj1 (failed_build_keeps_verifying
                   (run BulletinBoard_init Demo.null_keys) {[ "bob" ]}
                   (Demo.verification_of "alice")
                   {| verification_guardian_id := "alice" |} 2 None
                   _ _ _ _ _ _)).
  - reflexivity.
  - reflexivity.
  - reflexivity.
  - vm_compute. repeat constructor.
  - reflexivity.
  - reflexivity.
Defined.

(** X12 with the vote open: a share bundle sent early is not recorded. *)
Lemma no_share_before_the_share_step_witness :
  shares (context
            (run Demo.voting
               [ Demo.submit_message
                   (Demo.share_of (Demo.bundle "alice" 3 1)) ]))
  = [].
Proof.
  refine (no_share_before_the_share_step _ _ _).
  - exists (Demo.key_ceremony
            ++ [ Demo.submit_message
                   (Demo.share_of (Demo.bundle "alice" 3 1)) ]).
    vm_compute. reflexivity.
  - vm_compute. repeat constructor.
Defined.

(** X13 with the vote open: two ballots added around a share bundle. *)
Lemma tally_is_the_added_ballots_witness :
  ∃ metadata ectx,
    election_metadata (context Demo.voting) = Some metadata
    ∧ election_context (context Demo.voting) = Some ectx
    ∧ tally (context
               (run Demo.voting
                  (Submit "end_vote" (Demo.message "end_vote" Demo.Empty)
                   :: [ Demo.add_ballot_of 5;
                        Demo.submit "start_tally" Demo.Empty;
                        Demo.submit_message
                          (Demo.share_of (Demo.bundle "alice" 3 1));
                        Demo.add_ballot_of 6 ])))
      = Some (tally_all [ Demo.Ballot 5; Demo.Ballot 6 ]
                (new_CiphertextTally "election-results" metadata ectx)).
Proof.
  refine (tally_is_the_added_ballots Demo.voting
            (Demo.message "end_vote" Demo.Empty) _ _ _).
  - by exists Demo.key_ceremony.
  - reflexivity.
Defined.

(** X14 at two guardians. *)
Lemma key_ceremony_end_to_end_witness :
  emitted BulletinBoard_init
    (submissions
       (Demo.message "create_election" (Demo.CreateElection 2)
        :: Demo.message "start_key_ceremony" Demo.Empty
        :: [ Demo.keys_of "alice" 3; Demo.keys_of "bob" 4 ]
           ++ [ Demo.partial_keys_of "bob"; Demo.partial_keys_of "alice" ]
           ++ [ Demo.verification_of "alice"; Demo.verification_of "alice";
                Demo.verification_of "bob" ]))
  = [ end_key_ceremony 7 ].
Proof.
  refine (proj2 (key_ceremony_end_to_end 2 None tt 7
                   (Demo.message "create_election" (Demo.CreateElection 2))
                   (Demo.message "start_key_ceremony" Demo.Empty)
                   [ Demo.keys_of "alice" 3; Demo.keys_of "bob" 4 ]
                   [ Demo.partial_keys_of "bob"; Demo.partial_keys_of "alice" ]
                   [ Demo.verification_of "alice";
                     Demo.verification_of "alice";
                     Demo.verification_of "bob" ]
                   _ _ _ _ _ _ _ _ _ _ _ _)).
  - repeat constructor.
  - reflexivity.
  - reflexivity.
  - reflexivity.
  - repeat constructor; by eexists.
  - apply (bool_decide_unpack _). by vm_compute.
  - reflexivity.
  - repeat constructor; by eexists.
  - vm_compute. reflexivity.
  - repeat constructor; by eexists.
  - vm_compute. reflexivity.
  - reflexivity.
Defined.
End Runs.
